(** * bookie: the bookmark manager's application models

    A shallow embedding of
    [src/server/bookie_server/blueprints/bookmark_manager/models.py]
    (classes [Bookmark] and [Tag], their constructors, timestamp properties
    and [dump] serialisers) together with the Python [datetime] operations
    the models call, and the statements of the specification settled
    against it.

    Layout: exceptions and results; [pydatetime] (calendar arithmetic,
    [astimezone], [isoformat]); Python values and dictionaries; the helper
    modules [utils] and [datetime_utils]; the classes [Tag] and [Bookmark];
    the persistence layer [store]; sample data; then the properties: the
    omission policy, the calendar, ISO-8601 strings, construction and
    dump, the store, and evaluations at the sample data; last, further
    properties of the properties, setters, [dump] and [__repr__]. *)

From stdpp Require Import gmap strings list fin_maps pretty.
From Stdlib Require Import ZArith Ascii String Lia.

Open Scope Z_scope.

(** ** Exceptions and results *)

(** The exceptions a call can end with.  [TypeError], [AttributeError] and
    [OverflowError] are Python's own; the last three are the error classes
    of the specification's taxonomy. *)
Inductive exception : Type :=
  | TypeError
  | AttributeError
  | OverflowError
  | ValidationError
  | ConstraintViolation
  | NotFoundError.

Inductive result (A : Type) : Type :=
  | Ok (a : A)
  | Err (e : exception).
Arguments Ok {A} a.
Arguments Err {A} e.

#[global] Instance result_ret : MRet result := fun A a => Ok a.
#[global] Instance result_bind : MBind result :=
  fun A B f r => match r with Ok a => f a | Err e => Err e end.
#[global] Instance result_fmap : FMap result :=
  fun A B f r => match r with Ok a => Ok (f a) | Err e => Err e end.

Definition is_Ok {A} (r : result A) : Prop := exists a, r = Ok a.

Definition raises {A} (r : result A) : Prop := exists e, r = Err e.

(** ** Python's [datetime] *)

Module pydatetime.

Definition MINYEAR : Z := 1.
Definition MAXYEAR : Z := 9999.
Definition _MAXORDINAL : Z := 3652059.

Definition _DI400Y : Z := 146097.
Definition _DI100Y : Z := 36524.
Definition _DI4Y : Z := 1461.

Definition _DAYS_IN_MONTH (month : Z) : Z :=
  match month with
  | 1 => 31 | 2 => 28 | 3 => 31 | 4 => 30 | 5 => 31 | 6 => 30
  | 7 => 31 | 8 => 31 | 9 => 30 | 10 => 31 | 11 => 30 | 12 => 31
  | _ => -1
  end.

Definition _DAYS_BEFORE_MONTH (month : Z) : Z :=
  match month with
  | 1 => 0 | 2 => 31 | 3 => 59 | 4 => 90 | 5 => 120 | 6 => 151
  | 7 => 181 | 8 => 212 | 9 => 243 | 10 => 273 | 11 => 304 | 12 => 334
  | _ => -1
  end.

Definition _is_leap (year : Z) : bool :=
  (year mod 4 =? 0) && (negb (year mod 100 =? 0) || (year mod 400 =? 0)).

Definition _days_before_year (year : Z) : Z :=
  let y := year - 1 in
  y * 365 + y / 4 - y / 100 + y / 400.

Definition _days_in_month (year month : Z) : Z :=
  if (month =? 2) && _is_leap year then 29 else _DAYS_IN_MONTH month.

Definition _days_before_month (year month : Z) : Z :=
  _DAYS_BEFORE_MONTH month + (if (2 <? month) && _is_leap year then 1 else 0).

Definition _ymd2ord (year month day : Z) : Z :=
  _days_before_year year + _days_before_month year month + day.

Definition _ord2ymd (n : Z) : Z * Z * Z :=
  let n := n - 1 in
  let n400 := n / _DI400Y in
  let n := n mod _DI400Y in
  let year := n400 * 400 + 1 in
  let n100 := n / _DI100Y in
  let n := n mod _DI100Y in
  let n4 := n / _DI4Y in
  let n := n mod _DI4Y in
  let n1 := n / 365 in
  let n := n mod 365 in
  let year := year + n100 * 100 + n4 * 4 + n1 in
  if (n1 =? 4) || (n100 =? 4) then (year - 1, 12, 31)
  else
    let leapyear := (n1 =? 3) && (negb (n4 =? 24) || (n100 =? 3)) in
    let month := Z.shiftr (n + 50) 5 in
    let preceding :=
      _DAYS_BEFORE_MONTH month + (if (2 <? month) && leapyear then 1 else 0) in
    if n <? preceding then
      let month := month - 1 in
      let preceding :=
        preceding
        - (_DAYS_IN_MONTH month + (if (month =? 2) && leapyear then 1 else 0)) in
      (year, month, n - preceding + 1)
    else (year, month, n - preceding + 1).

(** The month and day that [_ord2ymd] computes from the zero-based day
    [n] of a year. *)
Definition _month_and_day (leapyear : bool) (n : Z) : Z * Z :=
  let month := Z.shiftr (n + 50) 5 in
  let preceding :=
    _DAYS_BEFORE_MONTH month + (if (2 <? month) && leapyear then 1 else 0) in
  if n <? preceding then
    let month := month - 1 in
    let preceding :=
      preceding
      - (_DAYS_IN_MONTH month + (if (month =? 2) && leapyear then 1 else 0)) in
    (month, n - preceding + 1)
  else (month, n - preceding + 1).

(** What [_month_and_day] must satisfy, as a test. *)
Definition _month_and_day_ok (leapyear : bool) (n : Z) : bool :=
  let '(m, d) := _month_and_day leapyear n in
  (1 <=? m) && (m <=? 12) && (1 <=? d)
  && (d <=? _DAYS_IN_MONTH m + (if (m =? 2) && leapyear then 1 else 0))
  && (_DAYS_BEFORE_MONTH m + (if (2 <? m) && leapyear then 1 else 0) + d
      =? n + 1).

(** The converse test: the day [d] of month [m] is found again from its
    zero-based day of the year. *)
Definition _month_and_day_inv_ok (leapyear : bool) (m d : Z) : bool :=
  let n := _DAYS_BEFORE_MONTH m + (if (2 <? m) && leapyear then 1 else 0) + d - 1 in
  if (1 <=? m) && (m <=? 12) && (1 <=? d)
     && (d <=? _DAYS_IN_MONTH m + (if (m =? 2) && leapyear then 1 else 0))
  then
    (364 <? n)
    || ((fst (_month_and_day leapyear n) =? m)
        && (snd (_month_and_day leapyear n) =? d))
  else true.

(** A timezone-aware [datetime]: the calendar fields and the offset of
    its [tzinfo] from UTC, in seconds east.  Every timestamp the models
    hold is aware: the columns are [TIMESTAMP(timezone=True)] and the
    parser returns UTC values. *)
Record datetime : Type := mk_datetime {
  year : Z;
  month : Z;
  day : Z;
  hour : Z;
  minute : Z;
  second : Z;
  microsecond : Z;
  utcoffset : Z
}.

(** The field ranges the [datetime] constructor checks. *)
Definition valid (d : datetime) : bool :=
  (MINYEAR <=? year d) && (year d <=? MAXYEAR)
  && (1 <=? month d) && (month d <=? 12)
  && (1 <=? day d) && (day d <=? _days_in_month (year d) (month d))
  && (0 <=? hour d) && (hour d <=? 23)
  && (0 <=? minute d) && (minute d <=? 59)
  && (0 <=? second d) && (second d <=? 59)
  && (0 <=? microsecond d) && (microsecond d <=? 999999)
  && (-86400 <? utcoffset d) && (utcoffset d <? 86400).

Definition toordinal (d : datetime) : Z :=
  _ymd2ord (year d) (month d) (day d).

(** Seconds since midnight, as local wall time. *)
Definition seconds_of_day (d : datetime) : Z :=
  hour d * 3600 + minute d * 60 + second d.

(** The instant a datetime denotes, in microseconds since the start of
    ordinal day 0, UTC. *)
Definition instant (d : datetime) : Z :=
  ((toordinal d * 86400 + seconds_of_day d - utcoffset d) * 1000000)
  + microsecond d.

(** [d.astimezone(tzutc())]: [utc = (d - offset).replace(tzinfo=tz)],
    then [tz.fromutc(utc)], the identity for [tzutc].  The subtraction
    normalises days, seconds and microseconds and raises [OverflowError]
    when the day leaves [1 .. _MAXORDINAL]. *)
Definition astimezone_utc (d : datetime) : result datetime :=
  let s := toordinal d * 86400 + seconds_of_day d - utcoffset d in
  let days := s / 86400 in
  let secs := s mod 86400 in
  if (0 <? days) && (days <=? _MAXORDINAL) then
    let '(y, m, dd) := _ord2ymd days in
    Ok {| year := y; month := m; day := dd;
          hour := secs / 3600;
          minute := (secs mod 3600) / 60;
          second := (secs mod 3600) mod 60;
          microsecond := microsecond d;
          utcoffset := 0 |}
  else Err OverflowError.

(** A [datetime] is always true in a boolean context. *)
Definition truth (d : datetime) : bool := true.

Definition digit (n : Z) : ascii := ascii_of_nat (Z.to_nat (48 + n mod 10)).

(** [%0<w>d] for a number of at most [w] digits. *)
Fixpoint zfill (w : nat) (n : Z) : string :=
  match w with
  | O => EmptyString
  | S w' => zfill w' (n / 10) +:+ String (digit n) EmptyString
  end.

Definition format_offset (off : Z) : string :=
  let sign := if off <? 0 then "-" else "+" in
  let a := Z.abs off in
  let hh := a / 3600 in
  let mm := (a mod 3600) / 60 in
  let ss := (a mod 3600) mod 60 in
  sign +:+ zfill 2 hh +:+ ":" +:+ zfill 2 mm
  +:+ (if ss =? 0 then EmptyString else ":" +:+ zfill 2 ss).

Definition isoformat (d : datetime) : string :=
  zfill 4 (year d) +:+ "-" +:+ zfill 2 (month d) +:+ "-" +:+ zfill 2 (day d)
  +:+ "T" +:+ zfill 2 (hour d) +:+ ":" +:+ zfill 2 (minute d)
  +:+ ":" +:+ zfill 2 (second d)
  +:+ (if microsecond d =? 0 then EmptyString else "." +:+ zfill 6 (microsecond d))
  +:+ format_offset (utcoffset d).

(** [str(d)]: [isoformat] with a space as separator. *)
Definition to_str (d : datetime) : string :=
  zfill 4 (year d) +:+ "-" +:+ zfill 2 (month d) +:+ "-" +:+ zfill 2 (day d)
  +:+ " " +:+ zfill 2 (hour d) +:+ ":" +:+ zfill 2 (minute d)
  +:+ ":" +:+ zfill 2 (second d)
  +:+ (if microsecond d =? 0 then EmptyString else "." +:+ zfill 6 (microsecond d))
  +:+ format_offset (utcoffset d).

(** The first and the last instant a [datetime] can hold, in UTC:
    [datetime.min] and [datetime.max] with [tzinfo=tzutc()]. *)
Definition utc_min : datetime := mk_datetime 1 1 1 0 0 0 0 0.
Definition utc_max : datetime := mk_datetime 9999 12 31 23 59 59 999999 0.

End pydatetime.

(** ** Python values *)

(** The values a dumped mapping can hold.  [VObject r] is a model
    instance itself (a raw entity, identified by the identity [r] of the
    object), as opposed to the mapping obtained by dumping it. *)
#[warnings="-register-all"] Inductive value : Type :=
  | VNone
  | VInt (n : Z)
  | VStr (s : string)
  | VList (l : list value)
  | VDict (d : gmap string value)
  | VObject (r : positive).

Module utils.

(** Truth value of an object in a boolean context. *)
Definition truthy (v : value) : bool :=
  match v with
  | VNone => false
  | VInt n => negb (n =? 0)
  | VStr s => negb (String.eqb s EmptyString)
  | VList l => match l with [] => false | _ :: _ => true end
  | VDict d => match map_to_list d with [] => false | _ :: _ => true end
  | VObject _ => true
  end.

(** Modelled from the spec: [utils/utils.py], which defines
    [filter_dict], is not among the sources.  Section 4.2: given a base
    mapping and a list of keys considered omit-if-falsy, remove any
    listed key whose value is empty (empty string, empty list, or
    equivalent); all other keys are always included, even if null. *)
Definition filter_dict (d : gmap string value) (keys : list string)
  : gmap string value :=
  foldr (fun k acc =>
           match acc !! k with
           | Some v => if truthy v then acc else delete k acc
           | None => acc
           end) d keys.

End utils.

Module datetime_utils.

Definition digit_value (c : ascii) : option Z :=
  let n := Z.of_nat (nat_of_ascii c) in
  if (48 <=? n) && (n <=? 57) then Some (n - 48) else None.

(** Modelled from the spec: the readers below make up the ISO-8601
    syntax that [parse_iso8601] accepts.  [read_number]: exactly [w]
    decimal digits. *)
Fixpoint read_number (w : nat) (acc : Z) (s : string) : option (Z * string) :=
  match w with
  | O => Some (acc, s)
  | S w' =>
      match s with
      | String c s' =>
          match digit_value c with
          | Some v => read_number w' (acc * 10 + v) s'
          | None => None
          end
      | EmptyString => None
      end
  end.

Definition expect (c : ascii) (s : string) : option string :=
  match s with
  | String c' s' => if Ascii.eqb c c' then Some s' else None
  | EmptyString => None
  end.

(** Up to [w] further digits of a decimal fraction, scaled to [w]
    places. *)
Fixpoint read_fraction (w : nat) (acc : Z) (s : string) : Z * string :=
  match w with
  | O => (acc, s)
  | S w' =>
      match s with
      | String c s' =>
          match digit_value c with
          | Some v => read_fraction w' (acc * 10 + v) s'
          | None => (acc * 10 ^ Z.of_nat w, s)
          end
      | EmptyString => (acc * 10 ^ Z.of_nat w, s)
      end
  end.

(** Optional [.f], one to six digits, as microseconds. *)
Definition read_microsecond (s : string) : option (Z * string) :=
  match s with
  | String "."%char (String c s') =>
      match digit_value c with
      | Some v => Some (read_fraction 5 v s')
      | None => None
      end
  | String "."%char EmptyString => None
  | _ => Some (0, s)
  end.

(** The designator that ends the string: nothing or [Z] (UTC), or
    [+HH:MM] / [-HH:MM]; in seconds east of UTC. *)
Definition read_offset (s : string) : option Z :=
  match s with
  | EmptyString => Some 0
  | String "Z"%char EmptyString => Some 0
  | String sign s1 =>
      if Ascii.eqb sign "+" || Ascii.eqb sign "-" then
        '(hh, s2) ← read_number 2 0 s1;
        s3 ← expect ":" s2;
        '(mm, s4) ← read_number 2 0 s3;
        match s4 with
        | EmptyString =>
            if (hh <=? 23) && (mm <=? 59) then
              Some ((if Ascii.eqb sign "-" then -1 else 1) * (hh * 3600 + mm * 60))
            else None
        | String _ _ => None
        end
      else None
  end.

(** Modelled from the spec: the ISO-8601 strings accepted, with or
    without an explicit offset (section 4.1).  The fields written in
    [YYYY-MM-DDTHH:MM:SS[.f][Z|+HH:MM|-HH:MM]], when they form a date and
    time that exist; without an offset, UTC. *)
Definition iso8601_fields (s : string) : option pydatetime.datetime :=
  '(y, s) ← read_number 4 0 s;
  s ← expect "-" s;
  '(m, s) ← read_number 2 0 s;
  s ← expect "-" s;
  '(d, s) ← read_number 2 0 s;
  s ← expect "T" s;
  '(hh, s) ← read_number 2 0 s;
  s ← expect ":" s;
  '(mi, s) ← read_number 2 0 s;
  s ← expect ":" s;
  '(ss, s) ← read_number 2 0 s;
  '(us, s) ← read_microsecond s;
  off ← read_offset s;
  let dt := pydatetime.mk_datetime y m d hh mi ss us off in
  if pydatetime.valid dt then Some dt else None.

(** Modelled from the spec: [utils/datetime_utils.py], which defines
    [parse_iso8601], is not among the sources.  Section 4.1: parsing
    accepts an ISO-8601 string, with or without an explicit offset, and
    the stored value is normalised to UTC; construction fails with a
    [ValidationError] if a timestamp string cannot be parsed as
    ISO-8601.  A string without an offset is taken as UTC, and [None]
    (the argument is [Optional[str]]) is not a timestamp string. *)
Definition parse_iso8601 (iso8601_timestamp : option string)
  : result pydatetime.datetime :=
  match iso8601_timestamp with
  | None => Err ValidationError
  | Some s =>
      match iso8601_fields s with
      | None => Err ValidationError
      | Some dt =>
          match pydatetime.astimezone_utc dt with
          | Ok utc => Ok utc
          | Err _ => Err ValidationError
          end
      end
  end.

End datetime_utils.

(** ** The ORM's declarations *)

Module db.

Inductive column_type : Type :=
  | Integer
  | Text
  | TIMESTAMP (timezone : bool).

(** [db.Column(type, primary_key=, nullable=, unique=)]. *)
Record Column : Type := mk_Column {
  type_ : column_type;
  primary_key : bool;
  nullable : bool;
  unique : bool
}.

(** [db.relationship(argument, secondary=, back_populates=, lazy=)]. *)
Record relationship : Type := mk_relationship {
  argument : string;
  secondary : string;
  back_populates : string;
  lazy : string
}.

Inductive attribute : Type :=
  | column (c : Column)
  | relation (r : relationship).

(** [db.Column('name', type, db.ForeignKey(target))] of a [db.Table]. *)
Record table_column : Type := mk_table_column {
  tc_name : string;
  tc_type : column_type;
  tc_foreign_key : string
}.

Definition is_relation (a : attribute) : bool :=
  match a with relation _ => true | column _ => false end.

End db.

Definition bookmark_and_bookmark_tag_association_table
  : string * list db.table_column :=
  ("bookmark_and_bookmark_tag_association"%string,
   [ db.mk_table_column "bookmark_id" db.Integer "bookmark.id";
     db.mk_table_column "tag_id" db.Integer "tag.id" ]).

(** ** class Tag *)

Module Tag.

(** The class body: the mapped attributes of [Tag]. *)
Definition declared : list (string * db.attribute) :=
  [ ("id"%string, db.column (db.mk_Column db.Integer true false false));
    ("name"%string, db.column (db.mk_Column db.Text false false true));
    ("bookmarks"%string,
     db.relation (db.mk_relationship "Bookmark"
                    "bookmark_and_bookmark_tag_association" "tags" "noload")) ].

(** An instance.  [id] is [None] until the row is inserted.
    [bookmarks] is the relationship collection, a list of [Bookmark]
    objects held by identity; it is [None] while the instance has no
    collection of its own, and then reads as the empty list.  [tags] is
    the plain instance attribute of that name, [None] while the
    instance has no such attribute. *)
Record t : Type := mk {
  id : option Z;
  name : string;
  bookmarks : option (list positive);
  tags : option (list value)
}.

(** [Tag(name)]; [None] stands for a call without [name].  The call
    passes no further keyword argument, so that [db.Model.__init__] has
    nothing to set. *)
Definition __init__ (name : option string) : result t :=
  match name with
  | None => Err TypeError
  | Some name =>
      Ok {| id := None;
            name := name;
            bookmarks := None;
            tags := Some [] |}
  end.

(** Reading [self.bookmarks]. *)
Definition get_bookmarks (self : t) : list positive :=
  default [] (bookmarks self).

Definition id_value (i : option Z) : value :=
  match i with Some n => VInt n | None => VNone end.

Definition dump (self : t) : gmap string value :=
  utils.filter_dict
    (list_to_map
       [ ("id"%string, id_value (id self));
         ("name"%string, VStr (name self));
         ("bookmarks"%string, VList (VObject <$> get_bookmarks self)) ])
    [].

End Tag.

(** ** class Bookmark *)

Module Bookmark.

Import pydatetime.

(** The class body: the mapped attributes of [Bookmark]. *)
Definition declared : list (string * db.attribute) :=
  [ ("id"%string, db.column (db.mk_Column db.Integer true false false));
    ("title"%string, db.column (db.mk_Column db.Text false false false));
    ("url"%string, db.column (db.mk_Column db.Text false false false));
    ("notes"%string, db.column (db.mk_Column db.Text false false false));
    ("_modified"%string,
     db.column (db.mk_Column (db.TIMESTAMP true) false false false));
    ("_created"%string,
     db.column (db.mk_Column (db.TIMESTAMP true) false false false));
    ("tags"%string,
     db.relation (db.mk_relationship "Tag"
                    "bookmark_and_bookmark_tag_association" "bookmarks" "joined")) ].

Record t : Type := mk {
  id : option Z;
  title : string;
  url : string;
  notes : string;
  _modified : option datetime;
  _created : option datetime;
  tags : list Tag.t
}.

(** The values of the default-parameter expressions of [__init__]:
    [datetime.now(tzutc()).isoformat()] for [modified] and for
    [created].  Python evaluates them when the [def] statement runs. *)
Record defaults : Type := mk_defaults {
  modified_default : string;
  created_default : string
}.

(** Executing the class body, the clock reading [now_modified] and then
    [now_created] (what [datetime.now(tzutc())] returns at those two
    moments). *)
Definition define (now_modified now_created : datetime) : defaults :=
  {| modified_default := isoformat now_modified;
     created_default := isoformat now_created |}.

(** The arguments of a call [Bookmark(...)]: for each parameter, [None]
    when the call does not pass it.  [modified] and [created] accept a
    string or Python's [None]. *)
Record arguments : Type := mk_arguments {
  arg_title : option string;
  arg_url : option string;
  arg_notes : option string;
  arg_modified : option (option string);
  arg_created : option (option string);
  arg_tags : option (list Tag.t)
}.

(** [Bookmark(...)], with the defaults [D] of the class.  The call passes
    no further keyword argument, so that [db.Model.__init__] has nothing
    to set; a call without [title] or [url] is rejected when the
    arguments are bound.  The instance holds the tags as they are
    passed: what the ORM's back-reference does to the tags themselves
    (each gains the new bookmark in its [bookmarks]) is outside this
    model, and nothing below states the content of a tag after
    construction. *)
Definition __init__ (D : defaults) (a : arguments) : result t :=
  match arg_title a, arg_url a with
  | Some title, Some url =>
      let notes := default EmptyString (arg_notes a) in
      let modified := default (Some (modified_default D)) (arg_modified a) in
      let created := default (Some (created_default D)) (arg_created a) in
      let tags := default [] (arg_tags a) in
      m ← datetime_utils.parse_iso8601 modified;
      c ← match created with
          | Some _ => Some <$> datetime_utils.parse_iso8601 created
          | None => Ok None
          end;
      Ok {| id := None;
            title := title;
            url := url;
            notes := notes;
            _modified := Some m;
            _created := c;
            tags := tags |}
  | _, _ => Err TypeError
  end.

(** A call at wall-clock time [now]: the body reads no clock. *)
Definition construct_at (D : defaults) (now : datetime) (a : arguments)
  : result t :=
  __init__ D a.

(** The [created] property. *)
Definition created (self : t) : result datetime :=
  match _created self with
  | Some d => astimezone_utc d
  | None => Err AttributeError
  end.

Definition set_created (self : t) (iso8601_timestamp : option string)
  : result t :=
  d ← datetime_utils.parse_iso8601 iso8601_timestamp;
  Ok {| id := id self; title := title self; url := url self;
        notes := notes self; _modified := _modified self;
        _created := Some d; tags := tags self |}.

(** The [modified] property. *)
Definition modified (self : t) : result datetime :=
  match _modified self with
  | Some d => astimezone_utc d
  | None => Err AttributeError
  end.

Definition set_modified (self : t) (iso8601_timestamp : option string)
  : result t :=
  d ← datetime_utils.parse_iso8601 iso8601_timestamp;
  Ok {| id := id self; title := title self; url := url self;
        notes := notes self; _modified := Some d;
        _created := _created self; tags := tags self |}.

Definition dump (self : t) : result (gmap string value) :=
  modified_value ←
    (guard ← modified self;
     if truth guard then
       m ← modified self;
       utc ← astimezone_utc m;
       Ok (VStr (isoformat utc))
     else Ok VNone);
  created_value ←
    match _created self with
    | Some c =>
        if truth c then
          utc ← astimezone_utc c;
          Ok (VStr (isoformat utc))
        else Ok VNone
    | None => Ok VNone
    end;
  Ok (utils.filter_dict
        (list_to_map
           [ ("id"%string, Tag.id_value (id self));
             ("title"%string, VStr (title self));
             ("url"%string, VStr (url self));
             ("notes"%string, VStr (notes self));
             ("modified"%string, modified_value);
             ("created"%string, created_value);
             ("tags"%string, VList ((fun tag => VDict (Tag.dump tag)) <$> tags self)) ])
        [ "tags"%string; "notes"%string ]).

(** The timestamps of [self] can be rendered: [_modified] is set, and
    converting it, and [_created] when set, to UTC stays within the years
    [datetime] can hold. *)
Definition renders (d : datetime) : bool :=
  match astimezone_utc d with Ok _ => true | Err _ => false end.

Definition well_formed (self : t) : bool :=
  match _modified self with Some m => renders m | None => false end
  && match _created self with Some c => renders c | None => true end.

(** A call leaves out a required parameter. *)
Definition missing_required (a : arguments) : bool :=
  match arg_title a, arg_url a with
  | Some _, Some _ => false
  | _, _ => true
  end.

Definition parses (ts : option string) : bool :=
  match datetime_utils.parse_iso8601 ts with Ok _ => true | Err _ => false end.

(** Every timestamp the call supplies can be parsed: [modified] when it
    is passed, and [created] when it is passed and is not [None]. *)
Definition supplied_timestamps_parse (a : arguments) : bool :=
  match arg_modified a with Some ts => parses ts | None => true end
  && match arg_created a with
     | Some (Some s) => parses (Some s)
     | Some None | None => true
     end.

Definition quoted (s : string) : string :=
  String "034"%char s +:+ String "034"%char EmptyString.

(** [__repr__], for a given [string_utils.truncate_str]. *)
Definition __repr__ (truncate_str : string -> Z -> string) (self : t)
  : result string :=
  let truncate_len := 10 in
  let title := truncate_str (title self) truncate_len in
  let url := truncate_str (url self) truncate_len in
  m ← modified self;
  c ← created self;
  Ok ("<title=" +:+ quoted title +:+ ", url=" +:+ quoted url
      +:+ ", modified=(" +:+ to_str m +:+ "), created=(" +:+ to_str c
      +:+ "), tags=(" +:+ pretty (Z.of_nat (List.length (tags self)))
      +:+ " tags)>").

(** An assignment to one of the two timestamp properties,
    [self.created = ts] or [self.modified = ts]. *)
Inductive assignment : Type :=
  | assign_created (iso8601_timestamp : option string)
  | assign_modified (iso8601_timestamp : option string).

Definition assign (self : t) (x : assignment) : result t :=
  match x with
  | assign_created ts => set_created self ts
  | assign_modified ts => set_modified self ts
  end.

(** Assignments one after the other; the first that raises ends the
    sequence. *)
Fixpoint assign_all (self : t) (xs : list assignment) : result t :=
  match xs with
  | [] => Ok self
  | x :: xs' => self' ← assign self x; assign_all self' xs'
  end.

End Bookmark.

(** ** The entity store *)

Module store.

(** Modelled from the spec: the persistence operations ([save], [delete])
    are carried out by the ORM session and the database, and the code
    that calls them is not among the sources.  Section 6 gives the three
    tables, section 4.1 the operations: [save] persists a new or updated
    entity and fails with a [ConstraintViolation] if a unique constraint
    is violated; [delete] removes the entity and its association-table
    rows and fails with [NotFoundError] if the entity no longer exists;
    ids are generated on insert.  Which columns are unique is read from
    the class declarations of the models. *)
Record bookmark_row : Type := mk_bookmark_row {
  r_title : string;
  r_url : string;
  r_notes : string;
  r_modified : option pydatetime.datetime;
  r_created : option pydatetime.datetime
}.

Record t : Type := mk {
  tag : gmap Z string;
  bookmark : gmap Z bookmark_row;
  association : list (Z * Z)
}.

Definition empty : t := {| tag := ∅; bookmark := ∅; association := [] |}.

(** Modelled from the spec: ids are generated on insert (section 3);
    here one past the largest id in the table. *)
Definition next_id {A} (rows : gmap Z A) : Z :=
  1 + map_fold (fun k _ acc => Z.max k acc) 0 rows.

(** Whether the class declares the column [name] with [unique=True]. *)
Definition declared_unique (declared : list (string * db.attribute))
  (name : string) : bool :=
  match list_find (fun kv => String.eqb (fst kv) name) declared with
  | Some (_, (_, db.column c)) => db.unique c
  | _ => false
  end.

(** Modelled from the spec: the unique constraint on tag names.  Some
    row other than [self] holds the name [n]. *)
Definition name_taken (rows : gmap Z string) (self : option Z) (n : string)
  : bool :=
  existsb (fun kv => String.eqb (snd kv) n
                     && negb (bool_decide (self = Some (fst kv))))
          (map_to_list rows).

(** Modelled from the spec: [save] of a tag (section 4.1).  A tag
    without id is inserted under a generated id, a tag with an id is
    written to the row of that id. *)
Definition save_tag (s : t) (x : Tag.t) : result (t * Tag.t) :=
  if declared_unique Tag.declared "name"
     && name_taken (tag s) (Tag.id x) (Tag.name x)
  then Err ConstraintViolation
  else
    let i := default (next_id (tag s)) (Tag.id x) in
    Ok ({| tag := <[i := Tag.name x]> (tag s);
           bookmark := bookmark s;
           association := association s |},
        {| Tag.id := Some i; Tag.name := Tag.name x;
           Tag.bookmarks := Tag.bookmarks x; Tag.tags := Tag.tags x |}).

(** Modelled from the spec: saving the tags of a bookmark, in order. *)
Fixpoint save_tags (s : t) (xs : list Tag.t) : result (t * list Tag.t) :=
  match xs with
  | [] => Ok (s, [])
  | x :: xs' =>
      '(s1, x1) ← save_tag s x;
      '(s2, xs1) ← save_tags s1 xs';
      Ok (s2, x1 :: xs1)
  end.

Definition unlink_bookmark (i : Z) (rows : list (Z * Z)) : list (Z * Z) :=
  List.filter (fun r => negb (fst r =? i)) rows.

Definition unlink_tag (i : Z) (rows : list (Z * Z)) : list (Z * Z) :=
  List.filter (fun r => negb (snd r =? i)) rows.

Definition tag_ids (xs : list Tag.t) : list Z :=
  omap Tag.id xs.

(** Modelled from the spec: [save] of a bookmark (section 4.1), which
    saves its tags with it and rewrites its rows of the association
    table. *)
Definition save_bookmark (s : t) (b : Bookmark.t) : result (t * Bookmark.t) :=
  '(s1, xs) ← save_tags s (Bookmark.tags b);
  let i := default (next_id (bookmark s1)) (Bookmark.id b) in
  Ok ({| tag := tag s1;
         bookmark :=
           <[i := {| r_title := Bookmark.title b; r_url := Bookmark.url b;
                     r_notes := Bookmark.notes b;
                     r_modified := Bookmark._modified b;
                     r_created := Bookmark._created b |}]> (bookmark s1);
         association :=
           ((fun j => (i, j)) <$> tag_ids xs)
           ++ unlink_bookmark i (association s1) |},
      {| Bookmark.id := Some i; Bookmark.title := Bookmark.title b;
         Bookmark.url := Bookmark.url b; Bookmark.notes := Bookmark.notes b;
         Bookmark._modified := Bookmark._modified b;
         Bookmark._created := Bookmark._created b;
         Bookmark.tags := xs |}).

(** Modelled from the spec: [delete] (section 4.1) removes the entity
    and its association rows, not the related entities. *)
Definition delete_tag (s : t) (x : Tag.t) : result t :=
  match Tag.id x with
  | Some i =>
      match tag s !! i with
      | Some _ =>
          Ok {| tag := delete i (tag s);
                bookmark := bookmark s;
                association := unlink_tag i (association s) |}
      | None => Err NotFoundError
      end
  | None => Err NotFoundError
  end.

(** Modelled from the spec: [delete] of a bookmark (section 4.1). *)
Definition delete_bookmark (s : t) (b : Bookmark.t) : result t :=
  match Bookmark.id b with
  | Some i =>
      match bookmark s !! i with
      | Some _ =>
          Ok {| tag := tag s;
                bookmark := delete i (bookmark s);
                association := unlink_bookmark i (association s) |}
      | None => Err NotFoundError
      end
  | None => Err NotFoundError
  end.

(** Modelled from the spec: the operations that change the store. *)
Inductive operation : Type :=
  | SaveTag (x : Tag.t)
  | SaveBookmark (b : Bookmark.t)
  | DeleteTag (x : Tag.t)
  | DeleteBookmark (b : Bookmark.t).

Definition apply (s : t) (o : operation) : result t :=
  match o with
  | SaveTag x => fst <$> save_tag s x
  | SaveBookmark b => fst <$> save_bookmark s b
  | DeleteTag x => delete_tag s x
  | DeleteBookmark b => delete_bookmark s b
  end.

(** Modelled from the spec: a sequence of operations; one that fails
    is not partially applied and leaves the store as it was (section
    7). *)
Fixpoint run (s : t) (os : list operation) : t :=
  match os with
  | [] => s
  | o :: os' =>
      match apply s o with
      | Ok s' => run s' os'
      | Err _ => run s os'
      end
  end.

(** No two rows of the tag table hold the same name. *)
Definition names_unique (s : t) : Prop :=
  forall i j n, tag s !! i = Some n -> tag s !! j = Some n -> i = j.

End store.

(** ** Sample data *)

Module sample.

Import pydatetime.

(** The moment the class body is executed, and two later moments. *)
Definition import_time : datetime := mk_datetime 2021 1 1 0 0 0 0 0.
Definition import_time' : datetime := mk_datetime 2021 1 1 0 0 0 7 0.
Definition first_call : datetime := mk_datetime 2021 6 1 12 0 0 0 0.
Definition second_call : datetime := mk_datetime 2022 3 4 5 6 7 0 0.

Definition D : Bookmark.defaults := Bookmark.define import_time import_time'.

Definition work : Tag.t :=
  {| Tag.id := None; Tag.name := "work"; Tag.bookmarks := None;
     Tag.tags := Some [] |}.

(** [Bookmark(title="t", url="u")]. *)
Definition minimal : Bookmark.arguments :=
  Bookmark.mk_arguments (Some "t"%string) (Some "u"%string) None None None None.

(** [Bookmark(title="t", url="u", created=None)]. *)
Definition created_none : Bookmark.arguments :=
  Bookmark.mk_arguments (Some "t"%string) (Some "u"%string) None None
    (Some None) None.

(** [Bookmark(title="t", url="u", created="2021-01-01T00:00:00-05:00")]. *)
Definition created_new_york : Bookmark.arguments :=
  Bookmark.mk_arguments (Some "t"%string) (Some "u"%string) None None
    (Some (Some "2021-01-01T00:00:00-05:00"%string)) None.

(** [Bookmark(url="u")]. *)
Definition no_title : Bookmark.arguments :=
  Bookmark.mk_arguments None (Some "u"%string) None None None None.

(** [Bookmark("Rocq", "https://rocq-prover.org", notes="prover",
    modified="2020-02-29T23:30:00+01:00", tags=[work])]. *)
Definition full : Bookmark.arguments :=
  Bookmark.mk_arguments (Some "Rocq"%string)
    (Some "https://rocq-prover.org"%string) (Some "prover"%string)
    (Some (Some "2020-02-29T23:30:00+01:00"%string)) None (Some [work]).

(** The instances these calls construct. *)
Definition b_minimal : Bookmark.t :=
  {| Bookmark.id := None; Bookmark.title := "t"; Bookmark.url := "u";
     Bookmark.notes := EmptyString;
     Bookmark._modified := Some import_time;
     Bookmark._created := Some import_time';
     Bookmark.tags := [] |}.

Definition b_created_none : Bookmark.t :=
  {| Bookmark.id := None; Bookmark.title := "t"; Bookmark.url := "u";
     Bookmark.notes := EmptyString;
     Bookmark._modified := Some import_time;
     Bookmark._created := None;
     Bookmark.tags := [] |}.

Definition b_created_new_york : Bookmark.t :=
  {| Bookmark.id := None; Bookmark.title := "t"; Bookmark.url := "u";
     Bookmark.notes := EmptyString;
     Bookmark._modified := Some import_time;
     Bookmark._created := Some (mk_datetime 2021 1 1 5 0 0 0 0);
     Bookmark.tags := [] |}.

Definition b_full : Bookmark.t :=
  {| Bookmark.id := None; Bookmark.title := "Rocq";
     Bookmark.url := "https://rocq-prover.org";
     Bookmark.notes := "prover";
     Bookmark._modified := Some (mk_datetime 2020 2 29 22 30 0 0 0);
     Bookmark._created := Some import_time';
     Bookmark.tags := [work] |}.

(** A store that holds one tag named work. *)
Definition one_tag : store.t :=
  {| store.tag := {[ 1 := "work"%string ]}; store.bookmark := ∅;
     store.association := [] |}.

(** A bookmark as the ORM can load it, with a [_created] that lies
    before the first instant of [datetime] once converted to UTC, and one
    whose [_modified] is not set. *)
Definition b_early : Bookmark.t :=
  {| Bookmark.id := Some 7; Bookmark.title := "t"; Bookmark.url := "u";
     Bookmark.notes := EmptyString;
     Bookmark._modified := Some import_time;
     Bookmark._created := Some (mk_datetime 1 1 1 0 0 0 0 18000);
     Bookmark.tags := [] |}.

(** The bookmark [b_created_new_york] with [_created] as the ORM can
    load it, at offset -05:00. *)
Definition b_stored_offset : Bookmark.t :=
  {| Bookmark.id := None; Bookmark.title := "t"; Bookmark.url := "u";
     Bookmark.notes := EmptyString;
     Bookmark._modified := Some import_time;
     Bookmark._created := Some (mk_datetime 2021 1 1 0 0 0 0 (-18000));
     Bookmark.tags := [] |}.

Definition b_no_modified : Bookmark.t :=
  {| Bookmark.id := None; Bookmark.title := "t"; Bookmark.url := "u";
     Bookmark.notes := EmptyString;
     Bookmark._modified := None;
     Bookmark._created := None;
     Bookmark.tags := [] |}.

End sample.

(** * Properties *)

(** Goals of linear arithmetic with division and remainder by
    constants. *)
Ltac zdiv := Z.to_euclidean_division_equations; lia.

(** Name the quotient [q] and the remainder [r] of [x] by the constant
    [d], with the equation and the bounds that relate them. *)
Ltac euclid x d q r :=
  let E := fresh "E" in
  let B := fresh "B" in
  pose proof (Z.div_mod x d ltac:(lia)) as E;
  pose proof (Z.mod_pos_bound x d ltac:(lia)) as B;
  set (q := x / d) in *; set (r := x mod d) in *.

(** ** The field-omission policy *)

Section filter_dict.

Implicit Types (d : gmap string value) (keys : list string) (k : string).

Lemma filter_dict_cons d k keys :
  utils.filter_dict d (k :: keys)
  = match utils.filter_dict d keys !! k with
    | Some v => if utils.truthy v then utils.filter_dict d keys
                else delete k (utils.filter_dict d keys)
    | None => utils.filter_dict d keys
    end.
Proof. reflexivity. Qed.

Lemma filter_dict_lookup d keys k :
  utils.filter_dict d keys !! k
  = match d !! k with
    | Some v =>
        if bool_decide (k ∈ keys) && negb (utils.truthy v) then None else Some v
    | None => None
    end.
Proof.
  revert k. induction keys as [|k' keys IH]; intros k.
  - simpl. by destruct (d !! k).
  - rewrite filter_dict_cons.
    pose proof (IH k') as Hk'. pose proof (IH k) as Hk.
    destruct (decide (k = k')) as [->|Hne].
    + rewrite (bool_decide_true (k' ∈ k' :: keys)) by apply list_elem_of_here.
      destruct (d !! k') as [v|] eqn:E.
      * destruct (utils.truthy v) eqn:T; simpl in *.
        -- rewrite andb_false_r in Hk'. by rewrite Hk', T.
        -- rewrite andb_true_r in Hk'. rewrite Hk'.
           case_bool_decide; [done|]. by rewrite T, lookup_delete_eq.
      * by rewrite Hk'.
    + assert (bool_decide (k ∈ k' :: keys) = bool_decide (k ∈ keys)) as ->.
      { apply bool_decide_ext. rewrite elem_of_cons. intuition congruence. }
      rewrite <- Hk.
      destruct (utils.filter_dict d keys !! k') as [v|]; [|done].
      destruct (utils.truthy v); [done|].
      by rewrite lookup_delete_ne.
Qed.

(** A key that is not listed is left as it was. *)
Lemma filter_dict_lookup_other d keys k :
  k ∉ keys -> utils.filter_dict d keys !! k = d !! k.
Proof.
  intros Hk. rewrite filter_dict_lookup, bool_decide_false by done.
  by destruct (d !! k).
Qed.

(** A listed key is kept exactly when its value is true. *)
Lemma filter_dict_lookup_listed d keys k :
  k ∈ keys ->
  utils.filter_dict d keys !! k
  = match d !! k with
    | Some v => if utils.truthy v then Some v else None
    | None => None
    end.
Proof.
  intros Hk. rewrite filter_dict_lookup, bool_decide_true by done.
  destruct (d !! k) as [v|]; [|done]. by destruct (utils.truthy v).
Qed.

End filter_dict.

(** ** The calendar *)

Section calendar.

Import pydatetime.

Lemma forallb_range (P : Z -> bool) (N : nat) :
  forallb (fun k => P (Z.of_nat k)) (seq 0 N) = true ->
  forall n, 0 <= n < Z.of_nat N -> P n = true.
Proof.
  intros H n Hn. rewrite forallb_forall in H.
  specialize (H (Z.to_nat n)). rewrite Z2Nat.id in H by lia.
  apply H, in_seq. lia.
Qed.

Lemma _month_and_day_spec leapyear n :
  0 <= n < 365 -> _month_and_day_ok leapyear n = true.
Proof.
  revert n. apply (forallb_range (_month_and_day_ok leapyear) 365).
  destruct leapyear; vm_compute; reflexivity.
Qed.

Lemma _ord2ymd_unfold n :
  _ord2ymd n =
  let n0 := n - 1 in
  let n400 := n0 / 146097 in
  let r1 := n0 mod 146097 in
  let n100 := r1 / 36524 in
  let r2 := r1 mod 36524 in
  let n4 := r2 / 1461 in
  let r3 := r2 mod 1461 in
  let n1 := r3 / 365 in
  let r := r3 mod 365 in
  let y := n400 * 400 + 1 + n100 * 100 + n4 * 4 + n1 in
  if (n1 =? 4) || (n100 =? 4) then (y - 1, 12, 31)
  else
    let leapyear := (n1 =? 3) && (negb (n4 =? 24) || (n100 =? 3)) in
    (y, fst (_month_and_day leapyear r), snd (_month_and_day leapyear r)).
Proof.
  unfold _ord2ymd, _month_and_day, _DI400Y, _DI100Y, _DI4Y. cbv zeta.
  destruct (_ || _); [reflexivity|].
  destruct (_ <? _); reflexivity.
Qed.

Lemma _days_before_year_cycle a b c e :
  0 <= b <= 3 -> 0 <= c <= 24 -> 0 <= e <= 3 ->
  _days_before_year (a * 400 + 1 + b * 100 + c * 4 + e)
  = 146097 * a + 36524 * b + 1461 * c + 365 * e.
Proof.
  intros Hb Hc He. unfold _days_before_year. cbv zeta.
  zdiv.
Qed.

Lemma _is_leap_cycle a b c e :
  0 <= b <= 3 -> 0 <= c <= 24 -> 0 <= e <= 3 ->
  _is_leap (a * 400 + 1 + b * 100 + c * 4 + e)
  = (e =? 3) && (negb (c =? 24) || (b =? 3)).
Proof.
  intros Hb Hc He. unfold _is_leap.
  repeat match goal with |- context [?x =? ?y] => destruct (Z.eqb_spec x y) end;
    simpl; try reflexivity; exfalso; zdiv.
Qed.

Lemma _ymd2ord_ord2ymd n y m d :
  _ord2ymd n = (y, m, d) -> _ymd2ord y m d = n.
Proof.
  rewrite _ord2ymd_unfold. cbv zeta.
  euclid (n - 1) 146097 a r1. euclid r1 36524 b r2.
  euclid r2 1461 c r3. euclid r3 365 e r.
  clearbody a r1 b r2 c r3 e r.
  assert (0 <= b <= 4) as Hb by lia.
  assert (0 <= c <= 24) as Hc by lia.
  assert (0 <= e <= 4) as He by lia.
  destruct ((e =? 4) || (b =? 4)) eqn:Hspecial.
  - intros [= <- <- <-].
    apply orb_true_iff in Hspecial as [He4|Hb4].
    + apply Z.eqb_eq in He4. subst e.
      assert (b <= 3) as Hb3.
      { destruct (Z.eq_dec b 4); [|lia]. subst b. lia. }
      assert (c <= 23) as Hc23 by lia.
      replace (a * 400 + 1 + b * 100 + c * 4 + 4 - 1)
        with (a * 400 + 1 + b * 100 + c * 4 + 3) by lia.
      unfold _ymd2ord, _days_before_month.
      rewrite _days_before_year_cycle, _is_leap_cycle by lia.
      replace (c =? 24) with false by (symmetry; apply Z.eqb_neq; lia).
      simpl. lia.
    + apply Z.eqb_eq in Hb4. subst b.
      assert (c = 0 /\ e = 0 /\ r = 0) as (-> & -> & ->) by lia.
      replace (a * 400 + 1 + 4 * 100 + 0 * 4 + 0 - 1)
        with (a * 400 + 1 + 3 * 100 + 24 * 4 + 3) by lia.
      unfold _ymd2ord, _days_before_month.
      rewrite _days_before_year_cycle, _is_leap_cycle by lia.
      simpl. lia.
  - apply orb_false_iff in Hspecial as [He4%Z.eqb_neq Hb4%Z.eqb_neq].
    set (leapyear := (e =? 3) && (negb (c =? 24) || (b =? 3))).
    pose proof (_month_and_day_spec leapyear r ltac:(lia)) as Hmd.
    unfold _month_and_day_ok in Hmd.
    destruct (_month_and_day leapyear r) as [m' d'] eqn:Emd.
    simpl fst. simpl snd. intros [= <- <- <-].
    repeat (apply andb_prop in Hmd as [Hmd ?]).
    unfold _ymd2ord, _days_before_month.
    rewrite _days_before_year_cycle, _is_leap_cycle by lia.
    fold leapyear. lia.
Qed.

Lemma seconds_split s :
  0 <= s < 86400 ->
  s / 3600 * 3600 + s mod 3600 / 60 * 60 + (s mod 3600) mod 60 = s.
Proof. intros Hs. zdiv. Qed.

(** What a successful conversion to UTC returns. *)
Lemma astimezone_utc_inv d u :
  astimezone_utc d = Ok u ->
  let s := toordinal d * 86400 + seconds_of_day d - utcoffset d in
  0 < s / 86400 <= _MAXORDINAL
  /\ _ord2ymd (s / 86400) = (year u, month u, day u)
  /\ hour u = s mod 86400 / 3600
  /\ minute u = (s mod 86400) mod 3600 / 60
  /\ second u = ((s mod 86400) mod 3600) mod 60
  /\ microsecond u = microsecond d
  /\ utcoffset u = 0.
Proof.
  unfold astimezone_utc. cbv zeta.
  destruct (_ && _) eqn:Hrange; [|discriminate].
  apply andb_prop in Hrange as [H1%Z.ltb_lt H2%Z.leb_le].
  destruct (_ord2ymd _) as [[y m] dd] eqn:E.
  intros [= <-]. simpl. repeat split; auto.
Qed.

Lemma astimezone_utc_ordinal d u :
  astimezone_utc d = Ok u ->
  toordinal u * 86400 + seconds_of_day u
  = toordinal d * 86400 + seconds_of_day d - utcoffset d.
Proof.
  intros H. apply astimezone_utc_inv in H. cbv zeta in H.
  destruct H as (Hr & Hord & Hh & Hm & Hs & _ & _).
  apply _ymd2ord_ord2ymd in Hord.
  unfold toordinal at 1, seconds_of_day at 1. rewrite Hord, Hh, Hm, Hs.
  set (s := toordinal d * 86400 + seconds_of_day d - utcoffset d) in *.
  pose proof (Z.mod_pos_bound s 86400 ltac:(lia)) as B.
  pose proof (seconds_split (s mod 86400) B).
  pose proof (Z.div_mod s 86400 ltac:(lia)). lia.
Qed.

(** The conversion keeps the instant and yields offset zero. *)
Lemma astimezone_utc_instant d u :
  astimezone_utc d = Ok u -> utcoffset u = 0 /\ instant u = instant d.
Proof.
  intros H. pose proof (astimezone_utc_ordinal _ _ H) as Hs.
  apply astimezone_utc_inv in H. cbv zeta in H.
  destruct H as (_ & _ & _ & _ & _ & Hus & Hoff).
  split; [done|]. unfold instant. rewrite Hoff, Hus. lia.
Qed.

(** A converted value is a fixed point of the conversion. *)
Lemma astimezone_utc_idem d u :
  astimezone_utc d = Ok u -> astimezone_utc u = Ok u.
Proof.
  intros H. pose proof (astimezone_utc_ordinal _ _ H) as Hs.
  apply astimezone_utc_inv in H. cbv zeta in H.
  destruct H as (Hr & Hord & Hh & Hm & Hsec & Hus & Hoff).
  set (s := toordinal d * 86400 + seconds_of_day d - utcoffset d) in *.
  pose proof (Z.mod_pos_bound s 86400 ltac:(lia)) as B.
  pose proof (Z.div_mod s 86400 ltac:(lia)) as Hdm.
  unfold astimezone_utc. cbv zeta. rewrite Hoff, Z.sub_0_r, Hs.
  destruct ((0 <? s / 86400) && (s / 86400 <=? _MAXORDINAL)) eqn:Hrange.
  - rewrite Hord. destruct u; simpl in *. by subst.
  - apply andb_false_iff in Hrange as [?%Z.ltb_ge|?%Z.leb_gt]; lia.
Qed.

Lemma _month_and_day_inv leapyear m d :
  1 <= m <= 12 ->
  1 <= d <= _DAYS_IN_MONTH m + (if (m =? 2) && leapyear then 1 else 0) ->
  let n := _DAYS_BEFORE_MONTH m + (if (2 <? m) && leapyear then 1 else 0) + d - 1 in
  n <= 364 -> _month_and_day leapyear n = (m, d).
Proof.
  intros Hm Hd n Hn.
  assert (_month_and_day_inv_ok leapyear m d = true) as Hok.
  { assert (d <= 32) as Hd31.
    { assert (_DAYS_IN_MONTH m <= 31)
        by (unfold _DAYS_IN_MONTH;
            repeat match goal with
                   | |- context [match ?x with _ => _ end] => destruct x
                   end; lia).
      destruct ((m =? 2) && leapyear); lia. }
    revert d Hd31 Hd n Hn.
    enough (forall m, 0 <= m < Z.of_nat 13 ->
            forallb (fun k => _month_and_day_inv_ok leapyear m (Z.of_nat k)) (seq 0 33)
            = true) as Hall.
    { intros d Hd31 Hd _ _.
      apply (forallb_range (_month_and_day_inv_ok leapyear m) 33); [|lia].
      apply Hall. lia. }
    apply (forallb_range
             (fun m => forallb (fun k => _month_and_day_inv_ok leapyear m (Z.of_nat k))
                         (seq 0 33)) 13).
    destruct leapyear; vm_compute; reflexivity. }
  unfold _month_and_day_inv_ok in Hok. fold n in Hok.
  replace ((1 <=? m) && (m <=? 12) && (1 <=? d)
           && (d <=? _DAYS_IN_MONTH m + (if (m =? 2) && leapyear then 1 else 0)))
    with true in Hok
    by (symmetry; rewrite !andb_true_iff, !Z.leb_le; lia).
  replace (364 <? n) with false in Hok by (symmetry; apply Z.ltb_ge; lia).
  simpl in Hok. apply andb_prop in Hok as [?%Z.eqb_eq ?%Z.eqb_eq].
  destruct (_month_and_day leapyear n); simpl in *; congruence.
Qed.

Lemma day_of_year_bounds (leapyear : bool) m d :
  1 <= m <= 12 ->
  1 <= d <= (if (m =? 2) && leapyear then 29 else _DAYS_IN_MONTH m) ->
  let n0 := _DAYS_BEFORE_MONTH m + (if (2 <? m) && leapyear then 1 else 0) + d - 1 in
  0 <= n0 <= 364 + (if leapyear then 1 else 0)
  /\ (n0 = 365 -> m = 12 /\ d = 31).
Proof.
  intros Hm Hd.
  assert (m = 1 \/ m = 2 \/ m = 3 \/ m = 4 \/ m = 5 \/ m = 6 \/ m = 7
          \/ m = 8 \/ m = 9 \/ m = 10 \/ m = 11 \/ m = 12) as Hcases by lia.
  destruct leapyear;
    repeat (destruct Hcases as [->|Hcases]; [simpl in *; lia|]);
    subst; simpl in *; lia.
Qed.

Lemma _ord2ymd_ymd2ord y m d :
  1 <= m <= 12 -> 1 <= d <= _days_in_month y m ->
  _ord2ymd (_ymd2ord y m d) = (y, m, d).
Proof.
  intros Hm Hd.
  euclid (y - 1) 400 a q1. euclid q1 100 b q2. euclid q2 4 c e.
  clearbody a q1 b q2 c e.
  assert (y = a * 400 + 1 + b * 100 + c * 4 + e) as -> by lia.
  assert (0 <= b <= 3) as Hb by lia.
  assert (0 <= c <= 24) as Hc by lia.
  assert (0 <= e <= 3) as He by lia.
  unfold _days_in_month in Hd. rewrite _is_leap_cycle in Hd by lia.
  set (leapyear := (e =? 3) && (negb (c =? 24) || (b =? 3))) in *.
  set (n0 := _DAYS_BEFORE_MONTH m + (if (2 <? m) && leapyear then 1 else 0) + d - 1).
  assert (_DAYS_IN_MONTH m + (if (m =? 2) && leapyear then 1 else 0)
          = if (m =? 2) && leapyear then 29 else _DAYS_IN_MONTH m) as Hdim.
  { destruct (Z.eqb_spec m 2) as [->|]; [|simpl; lia]. by destruct leapyear. }
  destruct (day_of_year_bounds leapyear m d Hm Hd) as [Hn0 Hlast].
  fold n0 in Hn0, Hlast.
  assert (_ymd2ord (a * 400 + 1 + b * 100 + c * 4 + e) m d - 1
          = 146097 * a + 36524 * b + 1461 * c + 365 * e + n0) as Hord.
  { unfold _ymd2ord, _days_before_month.
    rewrite _days_before_year_cycle, _is_leap_cycle by lia.
    fold leapyear. subst n0. lia. }
  rewrite _ord2ymd_unfold. cbv zeta. rewrite Hord.
  destruct (Z.eq_dec n0 365) as [H365|H365].
  - destruct (Hlast H365) as [-> ->].
    assert (leapyear = true) as Hleap by (destruct leapyear; [done|lia]).
    unfold leapyear in Hleap.
    apply andb_prop in Hleap as [He3%Z.eqb_eq Hcb].
    subst e. rewrite H365.
    destruct (Z.eq_dec c 24) as [->|Hc24].
    + assert (b = 3) as ->.
      { apply orb_prop in Hcb as [Hcb|Hcb%Z.eqb_eq]; [discriminate|done]. }
      replace (146097 * a + 36524 * 3 + 1461 * 24 + 365 * 3 + 365)
        with (146096 + a * 146097) by lia.
      rewrite Z.div_add, Z.mod_add by lia.
      change (146096 / 146097) with 0. change (146096 mod 146097) with 146096.
      simpl. f_equal. f_equal. zdiv.
    + set (r1 := 36524 * b + 1461 * c + 1460).
      assert ((146097 * a + 36524 * b + 1461 * c + 365 * 3 + 365) / 146097 = a)
        as -> by (zdiv).
      assert ((146097 * a + 36524 * b + 1461 * c + 365 * 3 + 365) mod 146097 = r1)
        as -> by (subst r1; zdiv).
      assert (r1 / 36524 = b) as ->
        by (subst r1; zdiv).
      assert (r1 mod 36524 = 1461 * c + 1460) as ->
        by (subst r1; zdiv).
      assert ((1461 * c + 1460) / 1461 = c) as ->
        by (zdiv).
      assert ((1461 * c + 1460) mod 1461 = 1460) as ->
        by (zdiv).
      change (1460 / 365) with 4. simpl. f_equal. f_equal. lia.
  - assert (n0 <= 364) as Hn364 by (destruct leapyear; lia).
    set (r1 := 36524 * b + 1461 * c + 365 * e + n0).
    set (r2 := 1461 * c + 365 * e + n0).
    set (r3 := 365 * e + n0).
    assert ((146097 * a + 36524 * b + 1461 * c + 365 * e + n0) / 146097 = a)
      as -> by (zdiv).
    assert ((146097 * a + 36524 * b + 1461 * c + 365 * e + n0) mod 146097 = r1)
      as -> by (subst r1; zdiv).
    assert (r1 / 36524 = b) as ->
      by (subst r1; zdiv).
    assert (r1 mod 36524 = r2) as ->
      by (subst r1 r2; zdiv).
    assert (r2 / 1461 = c) as ->
      by (subst r2; zdiv).
    assert (r2 mod 1461 = r3) as ->
      by (subst r2 r3; zdiv).
    assert (r3 / 365 = e) as ->
      by (subst r3; zdiv).
    assert (r3 mod 365 = n0) as ->
      by (subst r3; zdiv).
    replace ((e =? 4) || (b =? 4)) with false
      by (symmetry; apply orb_false_iff; split; apply Z.eqb_neq; lia).
    fold leapyear.
    pose proof (_month_and_day_inv leapyear m d Hm) as Hmd.
    cbv zeta in Hmd. fold n0 in Hmd.
    rewrite Hmd; [done| |done]. rewrite Hdim. lia.
Qed.

Lemma valid_inv d :
  valid d = true ->
  1 <= year d <= 9999 /\ 1 <= month d <= 12
  /\ 1 <= day d <= _days_in_month (year d) (month d)
  /\ 0 <= hour d <= 23 /\ 0 <= minute d <= 59 /\ 0 <= second d <= 59
  /\ 0 <= microsecond d <= 999999 /\ -86400 < utcoffset d < 86400.
Proof.
  unfold valid, MINYEAR, MAXYEAR. rewrite !andb_true_iff.
  rewrite !Z.leb_le, !Z.ltb_lt. tauto.
Qed.

Lemma _days_in_month_le y m : _days_in_month y m <= 31.
Proof.
  unfold _days_in_month. destruct (_ && _); [lia|].
  unfold _DAYS_IN_MONTH.
  repeat match goal with |- context [match ?x with _ => _ end] => destruct x end; lia.
Qed.

Lemma _ymd2ord_range y m d :
  1 <= y <= 9999 -> 1 <= m <= 12 -> 1 <= d <= _days_in_month y m ->
  1 <= _ymd2ord y m d <= _MAXORDINAL.
Proof.
  intros Hy Hm Hd.
  assert (0 <= _days_before_year y
          /\ (y <= 9998 -> _days_before_year y <= 3651329)) as [Hlo Hhi].
  { unfold _days_before_year. cbv zeta.
    split; [|intros ?]; zdiv. }
  assert (_DAYS_BEFORE_MONTH m
          + (if (2 <? m) && _is_leap y then 1 else 0)
          + _days_in_month y m
          <= 365 + (if _is_leap y then 1 else 0)
          /\ 0 <= _DAYS_BEFORE_MONTH m) as [Hdoy Hdbm].
  { unfold _days_in_month.
    assert (m = 1 \/ m = 2 \/ m = 3 \/ m = 4 \/ m = 5 \/ m = 6 \/ m = 7
            \/ m = 8 \/ m = 9 \/ m = 10 \/ m = 11 \/ m = 12) as Hcases by lia.
    destruct (_is_leap y);
      repeat (destruct Hcases as [->|Hcases]; [simpl; lia|]);
      subst; simpl; lia. }
  unfold _ymd2ord, _days_before_month, _MAXORDINAL.
  destruct (Z.eq_dec y 9999) as [->|Hne].
  - change (_is_leap 9999) with false in *.
    change (_days_before_year 9999) with 3651694.
    rewrite andb_false_r in *. lia.
  - specialize (Hhi ltac:(lia)).
    destruct (_is_leap y); rewrite ?andb_true_r, ?andb_false_r in *;
      destruct (2 <? m); lia.
Qed.

Lemma _ord2ymd_valid n y m d :
  1 <= n <= _MAXORDINAL -> _ord2ymd n = (y, m, d) ->
  1 <= y <= 9999 /\ 1 <= m <= 12 /\ 1 <= d <= _days_in_month y m.
Proof.
  unfold _MAXORDINAL. intros Hn. rewrite _ord2ymd_unfold. cbv zeta.
  euclid (n - 1) 146097 a r1. euclid r1 36524 b r2.
  euclid r2 1461 c r3. euclid r3 365 e r.
  clearbody a r1 b r2 c r3 e r.
  assert (0 <= a <= 24) as Ha by lia.
  assert (0 <= b <= 4) as Hb by lia.
  assert (0 <= c <= 24) as Hc by lia.
  assert (0 <= e <= 4) as He by lia.
  destruct ((e =? 4) || (b =? 4)) eqn:Hspecial.
  - intros [= <- <- <-].
    split; [|split; [lia|]].
    + apply orb_true_iff in Hspecial as [He4%Z.eqb_eq|Hb4%Z.eqb_eq]; lia.
    + unfold _days_in_month. simpl. lia.
  - apply orb_false_iff in Hspecial as [He4%Z.eqb_neq Hb4%Z.eqb_neq].
    set (leapyear := (e =? 3) && (negb (c =? 24) || (b =? 3))).
    pose proof (_month_and_day_spec leapyear r ltac:(lia)) as Hmd.
    unfold _month_and_day_ok in Hmd.
    destruct (_month_and_day leapyear r) as [m' d'] eqn:Emd.
    simpl fst. simpl snd. intros [= <- <- <-].
    repeat (apply andb_prop in Hmd as [Hmd ?]).
    split; [lia|]. split; [lia|].
    unfold _days_in_month. rewrite _is_leap_cycle by lia. fold leapyear.
    destruct (Z.eqb_spec m' 2) as [->|Hm2]; simpl in *; [|lia].
    destruct leapyear; simpl in *; lia.
Qed.

(** The result of a conversion is a valid [datetime]. *)
Lemma astimezone_utc_result_valid d u :
  astimezone_utc d = Ok u -> 0 <= microsecond d <= 999999 -> valid u = true.
Proof.
  intros H Hus. apply astimezone_utc_inv in H. cbv zeta in H.
  destruct H as (Hr & Hord & Hh & Hm & Hs & Hmic & Hoff).
  set (s := toordinal d * 86400 + seconds_of_day d - utcoffset d) in *.
  pose proof (Z.mod_pos_bound s 86400 ltac:(lia)) as B.
  apply _ord2ymd_valid in Hord as (Hy & Hmo & Hd); [|lia].
  unfold valid, MINYEAR, MAXYEAR.
  rewrite Hh, Hm, Hs, Hmic, Hoff.
  rewrite !andb_true_iff, !Z.leb_le, !Z.ltb_lt.
  repeat split; try lia; zdiv.
Qed.

(** Converting a valid UTC value changes nothing. *)
Lemma astimezone_utc_id d :
  valid d = true -> utcoffset d = 0 -> astimezone_utc d = Ok d.
Proof.
  intros Hv Hoff.
  pose proof (valid_inv d Hv) as (Hy & Hm & Hd & Hh & Hmi & Hs & Hus & _).
  pose proof (_ymd2ord_range _ _ _ Hy Hm Hd) as Hord.
  unfold astimezone_utc. cbv zeta. rewrite Hoff, Z.sub_0_r.
  unfold _MAXORDINAL in *. fold (toordinal d) in Hord.
  assert (0 <= seconds_of_day d < 86400) as Hsec by (unfold seconds_of_day; lia).
  assert ((toordinal d * 86400 + seconds_of_day d) / 86400 = toordinal d) as ->
    by (zdiv).
  assert ((toordinal d * 86400 + seconds_of_day d) mod 86400 = seconds_of_day d)
    as -> by (zdiv).
  replace (0 <? toordinal d) with true by (symmetry; apply Z.ltb_lt; lia).
  replace (toordinal d <=? 3652059) with true by (symmetry; apply Z.leb_le; lia).
  simpl. unfold toordinal. rewrite _ord2ymd_ymd2ord by lia.
  f_equal. destruct d as [y mo dd h mi ss us off]; simpl in *. subst off.
  unfold seconds_of_day. simpl. f_equal; zdiv.
Qed.

End calendar.

(** ** Writing and reading ISO-8601 *)

Section iso8601.
Import pydatetime.

Lemma digit_value_digit n :
  datetime_utils.digit_value (digit n) = Some (n mod 10).
Proof.
  unfold datetime_utils.digit_value, digit.
  pose proof (Z.mod_pos_bound n 10 ltac:(lia)) as B.
  rewrite nat_ascii_embedding by lia.
  rewrite Z2Nat.id by lia.
  replace (48 <=? 48 + n mod 10) with true by (symmetry; apply Z.leb_le; lia).
  replace (48 + n mod 10 <=? 57) with true by (symmetry; apply Z.leb_le; lia).
  simpl. f_equal. lia.
Qed.

Lemma digits4 n : 0 <= n <= 9999 ->
  (((0 * 10 + (n / 10 / 10 / 10) mod 10) * 10 + (n / 10 / 10) mod 10) * 10
   + (n / 10) mod 10) * 10 + n mod 10 = n.
Proof. intros H. zdiv. Qed.

Lemma digits2 n : 0 <= n <= 99 -> (0 * 10 + (n / 10) mod 10) * 10 + n mod 10 = n.
Proof. intros H. zdiv. Qed.

Lemma digits6 n : 0 <= n <= 999999 ->
  (((((n / 10 / 10 / 10 / 10 / 10) mod 10 * 10 + (n / 10 / 10 / 10 / 10) mod 10) * 10
     + (n / 10 / 10 / 10) mod 10) * 10 + (n / 10 / 10) mod 10) * 10
   + (n / 10) mod 10) * 10 + n mod 10 = n.
Proof. intros H. zdiv. Qed.

(** Reading back what [isoformat] writes for a UTC value. *)
Lemma iso8601_fields_isoformat d :
  valid d = true -> utcoffset d = 0 ->
  datetime_utils.iso8601_fields (isoformat d) = Some d.
Proof.
  intros Hv Hoff. pose proof (valid_inv d Hv) as (Hy & Hm & Hd & Hh & Hmi & Hs & Hus & _).
  pose proof (_days_in_month_le (year d) (month d)).
  unfold datetime_utils.iso8601_fields, isoformat. rewrite Hoff.
  change (format_offset 0) with "+00:00"%string.
  assert (datetime_utils.read_offset "+00:00" = Some 0) as Hro by reflexivity.
  destruct (microsecond d =? 0) eqn:Eus.
  - cbv [zfill String.append].
    repeat first
      [ progress cbn [mbind option_bind datetime_utils.expect
                      datetime_utils.read_number datetime_utils.read_microsecond
                      datetime_utils.read_fraction
                      Ascii.eqb Bool.eqb andb orb]
      | rewrite digit_value_digit ].
    rewrite Hro. cbn [mbind option_bind].
    rewrite digits4, !digits2 by lia.
    apply Z.eqb_eq in Eus.
    replace (mk_datetime _ _ _ _ _ _ _ _) with d
      by (destruct d; simpl in *; congruence).
    by rewrite Hv.
  - cbv [zfill String.append].
    repeat first
      [ progress cbn [mbind option_bind datetime_utils.expect
                      datetime_utils.read_number datetime_utils.read_microsecond
                      datetime_utils.read_fraction
                      Ascii.eqb Bool.eqb andb orb]
      | rewrite digit_value_digit ].
    rewrite Hro. cbn [mbind option_bind].
    rewrite digits4, !digits2, digits6 by lia.
    replace (mk_datetime _ _ _ _ _ _ _ _) with d
      by (destruct d; simpl in *; congruence).
    by rewrite Hv.
Qed.

(** Converting a valid UTC value succeeds. *)
Lemma astimezone_utc_valid d :
  valid d = true -> utcoffset d = 0 -> is_Ok (astimezone_utc d).
Proof.
  intros Hv Hoff.
  pose proof (valid_inv d Hv) as (Hy & Hm & Hd & Hh & Hmi & Hs & Hus & _).
  pose proof (_ymd2ord_range _ _ _ Hy Hm Hd) as Hord.
  unfold astimezone_utc. cbv zeta. rewrite Hoff, Z.sub_0_r.
  unfold _MAXORDINAL in *.
  fold (toordinal d) in Hord.
  assert (0 <= seconds_of_day d < 86400) as Hsec by (unfold seconds_of_day; lia).
  assert ((toordinal d * 86400 + seconds_of_day d) / 86400 = toordinal d) as ->.
  { zdiv. }
  replace (0 <? toordinal d) with true by (symmetry; apply Z.ltb_lt; lia).
  replace (toordinal d <=? 3652059) with true by (symmetry; apply Z.leb_le; lia).
  simpl. destruct (_ord2ymd _) as [[? ?] ?]. by eexists.
Qed.

(** The ISO string of a valid UTC value parses, to the same instant. *)
Lemma parse_iso8601_isoformat d :
  valid d = true -> utcoffset d = 0 ->
  exists u, datetime_utils.parse_iso8601 (Some (isoformat d)) = Ok u
            /\ astimezone_utc d = Ok u.
Proof.
  intros Hv Hoff. destruct (astimezone_utc_valid d Hv Hoff) as [u Hu].
  exists u. split; [|done].
  unfold datetime_utils.parse_iso8601.
  by rewrite iso8601_fields_isoformat, Hu.
Qed.

End iso8601.

(** ** Construction and serialisation of bookmarks *)

Section bookmark.

Import pydatetime.

Lemma parse_iso8601_inv ts u :
  datetime_utils.parse_iso8601 ts = Ok u ->
  exists s c, ts = Some s /\ datetime_utils.iso8601_fields s = Some c
              /\ astimezone_utc c = Ok u.
Proof.
  unfold datetime_utils.parse_iso8601.
  destruct ts as [s|]; [|discriminate].
  destruct (datetime_utils.iso8601_fields s) as [c|] eqn:F; [|discriminate].
  destruct (astimezone_utc c) as [u'|] eqn:E; [|discriminate].
  intros [= <-]. eauto.
Qed.

Lemma parse_iso8601_raises ts (e : exception) :
  datetime_utils.parse_iso8601 ts = Err e -> e = ValidationError.
Proof.
  unfold datetime_utils.parse_iso8601.
  destruct ts as [s|]; [|congruence].
  destruct (datetime_utils.iso8601_fields s) as [c|]; [|congruence].
  destruct (astimezone_utc c); congruence.
Qed.

Lemma parse_iso8601_fixed ts u :
  datetime_utils.parse_iso8601 ts = Ok u -> astimezone_utc u = Ok u.
Proof.
  intros (s & c & _ & _ & H)%parse_iso8601_inv.
  by apply astimezone_utc_idem in H.
Qed.

Lemma Bookmark_init_inv D a b :
  Bookmark.__init__ D a = Ok b ->
  exists title url m,
    Bookmark.arg_title a = Some title /\ Bookmark.arg_url a = Some url
    /\ datetime_utils.parse_iso8601
         (default (Some (Bookmark.modified_default D)) (Bookmark.arg_modified a))
       = Ok m
    /\ match default (Some (Bookmark.created_default D)) (Bookmark.arg_created a) with
       | Some s => exists c, datetime_utils.parse_iso8601 (Some s) = Ok c
                             /\ Bookmark._created b = Some c
       | None => Bookmark._created b = None
       end
    /\ Bookmark.id b = None
    /\ Bookmark.title b = title
    /\ Bookmark.url b = url
    /\ Bookmark.notes b = default EmptyString (Bookmark.arg_notes a)
    /\ Bookmark._modified b = Some m
    /\ Bookmark.tags b = default [] (Bookmark.arg_tags a).
Proof.
  unfold Bookmark.__init__.
  destruct (Bookmark.arg_title a) as [title|]; [|discriminate].
  destruct (Bookmark.arg_url a) as [url|]; [|discriminate].
  cbv zeta.
  destruct (datetime_utils.parse_iso8601 (default _ (Bookmark.arg_modified a)))
    as [m|] eqn:Em; [|discriminate].
  simpl.
  destruct (default _ (Bookmark.arg_created a)) as [s|] eqn:Ec.
  - destruct (datetime_utils.parse_iso8601 (Some s)) as [c|] eqn:Ep; [|discriminate].
    simpl. intros [= <-]. exists title, url, m. simpl. eauto 12.
  - simpl. intros [= <-]. exists title, url, m. simpl. eauto 12.
Qed.

Lemma Bookmark_init_well_formed D a b :
  Bookmark.__init__ D a = Ok b -> Bookmark.well_formed b = true.
Proof.
  intros (title & url & m & _ & _ & Hm & Hc & _ & _ & _ & _ & Hmod & _)%Bookmark_init_inv.
  unfold Bookmark.well_formed, Bookmark.renders. rewrite Hmod.
  rewrite (parse_iso8601_fixed _ _ Hm). simpl.
  destruct (default _ (Bookmark.arg_created a)) as [s|].
  - destruct Hc as (c & Hp & ->). by rewrite (parse_iso8601_fixed _ _ Hp).
  - by rewrite Hc.
Qed.

(** The mapping [dump] returns for a well-formed bookmark. *)
Lemma dump_well_formed self :
  Bookmark.well_formed self = true ->
  exists m um cv,
    Bookmark._modified self = Some m /\ astimezone_utc m = Ok um
    /\ match Bookmark._created self with
       | Some c => exists uc, astimezone_utc c = Ok uc /\ cv = VStr (isoformat uc)
       | None => cv = VNone
       end
    /\ Bookmark.dump self
       = Ok (utils.filter_dict
               (list_to_map
                  [ ("id"%string, Tag.id_value (Bookmark.id self));
                    ("title"%string, VStr (Bookmark.title self));
                    ("url"%string, VStr (Bookmark.url self));
                    ("notes"%string, VStr (Bookmark.notes self));
                    ("modified"%string, VStr (isoformat um));
                    ("created"%string, cv);
                    ("tags"%string,
                     VList ((fun tag => VDict (Tag.dump tag)) <$> Bookmark.tags self)) ])
               [ "tags"%string; "notes"%string ]).
Proof.
  unfold Bookmark.well_formed, Bookmark.renders, Bookmark.dump, Bookmark.modified.
  intros [Hm Hc]%andb_prop.
  destruct (Bookmark._modified self) as [m|]; [|discriminate].
  destruct (astimezone_utc m) as [um|] eqn:Em; [|discriminate].
  pose proof (astimezone_utc_idem _ _ Em) as Eum.
  destruct (Bookmark._created self) as [c|].
  - destruct (astimezone_utc c) as [uc|] eqn:Ec; [|discriminate].
    exists m, um, (VStr (isoformat uc)).
    split; [done|]. split; [done|]. split; [eauto|].
    simpl. rewrite Eum. simpl. reflexivity.
  - exists m, um, VNone.
    split; [done|]. split; [done|]. split; [done|].
    simpl. rewrite Eum. simpl. reflexivity.
Qed.

End bookmark.

Lemma dumped_lookups (idv mv cv : value) (title url notes : string) (tags : list value) :
  let d := utils.filter_dict
             (list_to_map
                [ ("id"%string, idv); ("title"%string, VStr title);
                  ("url"%string, VStr url); ("notes"%string, VStr notes);
                  ("modified"%string, mv); ("created"%string, cv);
                  ("tags"%string, VList tags) ])
             [ "tags"%string; "notes"%string ] in
  d !! "id"%string = Some idv
  /\ d !! "title"%string = Some (VStr title)
  /\ d !! "url"%string = Some (VStr url)
  /\ d !! "modified"%string = Some mv
  /\ d !! "created"%string = Some cv
  /\ d !! "notes"%string = (if String.eqb notes EmptyString then None else Some (VStr notes))
  /\ d !! "tags"%string = (match tags with [] => None | _ :: _ => Some (VList tags) end).
Proof.
  cbv zeta.
  assert (forall k : string, k ∉ ["tags"%string; "notes"%string] <-> k <> "tags"%string /\ k <> "notes"%string) as Hk.
  { intros k. rewrite !not_elem_of_cons. pose proof (not_elem_of_nil k). tauto. }
  repeat split.
  1-5: rewrite filter_dict_lookup_other by (apply Hk; split; discriminate); reflexivity.
  - rewrite filter_dict_lookup_listed by (rewrite !elem_of_cons; auto).
    change (_ !! "notes"%string) with (Some (VStr notes)). simpl.
    by destruct (String.eqb notes EmptyString).
  - rewrite filter_dict_lookup_listed by (rewrite !elem_of_cons; auto).
    change (_ !! "tags"%string) with (Some (VList tags)). simpl.
    by destruct tags.
Qed.

Lemma dump_lookups self :
  Bookmark.well_formed self = true ->
  exists m um cv d,
    Bookmark._modified self = Some m /\ pydatetime.astimezone_utc m = Ok um
    /\ match Bookmark._created self with
       | Some c => exists uc, pydatetime.astimezone_utc c = Ok uc
                              /\ cv = VStr (pydatetime.isoformat uc)
       | None => cv = VNone
       end
    /\ Bookmark.dump self = Ok d
    /\ d !! "id"%string = Some (Tag.id_value (Bookmark.id self))
    /\ d !! "title"%string = Some (VStr (Bookmark.title self))
    /\ d !! "url"%string = Some (VStr (Bookmark.url self))
    /\ d !! "modified"%string = Some (VStr (pydatetime.isoformat um))
    /\ d !! "created"%string = Some cv
    /\ d !! "notes"%string
       = (if String.eqb (Bookmark.notes self) EmptyString then None
          else Some (VStr (Bookmark.notes self)))
    /\ d !! "tags"%string
       = (match Bookmark.tags self with
          | [] => None
          | _ :: _ =>
              Some (VList ((fun tag => VDict (Tag.dump tag)) <$> Bookmark.tags self))
          end).
Proof.
  intros (m & um & cv & Hm & Hum & Hcv & Hd)%dump_well_formed.
  eexists m, um, cv, _. split; [done|]. split; [done|]. split; [done|].
  split; [exact Hd|].
  pose proof (dumped_lookups (Tag.id_value (Bookmark.id self))
                (VStr (pydatetime.isoformat um)) cv (Bookmark.title self)
                (Bookmark.url self) (Bookmark.notes self)
                ((fun tag => VDict (Tag.dump tag)) <$> Bookmark.tags self)) as H.
  cbv zeta in H. destruct H as (H1 & H2 & H3 & H4 & H5 & H6 & H7).
  repeat (split; [assumption|]).
  rewrite H7. by destruct (Bookmark.tags self).
Qed.

(** C1: for every bookmark whose timestamps can be rendered, [dump]
    returns a mapping that holds the keys id, title, url, modified and
    created, lacks notes exactly when the notes are the empty string,
    lacks tags exactly when the tag list is empty, and otherwise holds
    under tags the list of the dumps of the bookmark's tags. *)
Theorem C1_bookmark_dump_keys (self : Bookmark.t) :
  Bookmark.well_formed self = true ->
  exists d,
    Bookmark.dump self = Ok d
    /\ d !! "id"%string = Some (Tag.id_value (Bookmark.id self))
    /\ d !! "title"%string = Some (VStr (Bookmark.title self))
    /\ d !! "url"%string = Some (VStr (Bookmark.url self))
    /\ is_Some (d !! "modified"%string)
    /\ is_Some (d !! "created"%string)
    /\ (d !! "notes"%string = None <-> Bookmark.notes self = EmptyString)
    /\ (Bookmark.notes self <> EmptyString ->
        d !! "notes"%string = Some (VStr (Bookmark.notes self)))
    /\ (d !! "tags"%string = None <-> Bookmark.tags self = [])
    /\ (Bookmark.tags self <> [] ->
        d !! "tags"%string
        = Some (VList ((fun tag => VDict (Tag.dump tag)) <$> Bookmark.tags self))).
Proof.
  intros (m & um & cv & d & _ & _ & _ & Hd & Hid & Ht & Hu & Hm & Hc & Hn & Htags)%dump_lookups.
  exists d. repeat (split; [first [assumption | by eauto]|]).
  rewrite Hn, Htags.
  destruct (String.eqb_spec (Bookmark.notes self) EmptyString) as [->|Hne].
  - split; [done|]. split; [done|].
    destruct (Bookmark.tags self); [done|]. split; [split; discriminate|done].
  - split; [split; [discriminate|done]|]. split; [done|].
    destruct (Bookmark.tags self); [done|]. split; [split; discriminate|done].
Qed.

Lemma created_none_dump (D : Bookmark.defaults)
  (a : Bookmark.arguments) (b : Bookmark.t) :
  Bookmark.arg_created a = Some None ->
  Bookmark.__init__ D a = Ok b ->
  Bookmark._created b = None
  /\ exists d, Bookmark.dump b = Ok d /\ d !! "created"%string = Some VNone.
Proof.
  intros Ha Hb.
  pose proof (Bookmark_init_well_formed _ _ _ Hb) as Hwf.
  apply Bookmark_init_inv in Hb
    as (title & url & m & _ & _ & _ & Hc & _).
  rewrite Ha in Hc. simpl in Hc. split; [done|].
  apply dump_lookups in Hwf
    as (m' & um & cv & d & _ & _ & Hcv & Hd & _ & _ & _ & _ & Hcr & _).
  rewrite Hc in Hcv. subst cv. eauto.
Qed.

(** C4: a bookmark constructed with [created=None] has no value in
    [_created], and its dump holds the key created with the value
    [None]. *)
Theorem C4_created_none_dumps_null (D : Bookmark.defaults)
  (a : Bookmark.arguments) (b : Bookmark.t) :
  Bookmark.arg_created a = Some None ->
  Bookmark.__init__ D a = Ok b ->
  Bookmark._created b = None
  /\ exists d, Bookmark.dump b = Ok d /\ d !! "created"%string = Some VNone.
Proof. apply created_none_dump. Qed.

(** C6: on a bookmark constructed with [created=None], reading the
    property [created] raises (an [AttributeError], as does [__repr__],
    which reads the property), while [dump], which tests [_created]
    itself, returns a mapping. *)
Theorem C6_created_property_raises (D : Bookmark.defaults)
  (a : Bookmark.arguments) (b : Bookmark.t) :
  Bookmark.arg_created a = Some None ->
  Bookmark.__init__ D a = Ok b ->
  Bookmark.created b = Err AttributeError
  /\ (forall truncate_str, Bookmark.__repr__ truncate_str b = Err AttributeError)
  /\ exists d, Bookmark.dump b = Ok d /\ d !! "created"%string = Some VNone.
Proof.
  intros Ha Hb.
  destruct (created_none_dump D a b Ha Hb) as [Hc Hd].
  assert (Bookmark.created b = Err AttributeError) as Hcr.
  { unfold Bookmark.created. by rewrite Hc. }
  split; [done|]. split; [|done].
  intros truncate_str. unfold Bookmark.__repr__. cbv zeta.
  pose proof (Bookmark_init_well_formed _ _ _ Hb) as Hwf.
  unfold Bookmark.well_formed, Bookmark.renders in Hwf.
  unfold Bookmark.modified.
  destruct (Bookmark._modified b) as [m|]; [|discriminate].
  destruct (pydatetime.astimezone_utc m); [|discriminate].
  simpl. by rewrite Hcr.
Qed.

(** ** Timestamps through construction and dump *)

Section timestamps.
Import pydatetime.

Lemma iso8601_fields_valid s c :
  datetime_utils.iso8601_fields s = Some c -> valid c = true.
Proof.
  unfold datetime_utils.iso8601_fields. intros H.
  repeat match type of H with
         | mbind _ ?x = Some _ =>
             destruct x as [[]|] eqn:?; simpl in H; [|discriminate]
         | mbind _ ?x = Some _ =>
             destruct x eqn:?; simpl in H; [|discriminate]
         end.
  destruct (valid _) eqn:Hv; [|discriminate]. by injection H as <-.
Qed.

(** The ISO string of a valid UTC value parses to that value. *)
Lemma parse_iso8601_isoformat_id d :
  valid d = true -> utcoffset d = 0 ->
  datetime_utils.parse_iso8601 (Some (isoformat d)) = Ok d.
Proof.
  intros Hv Hoff. unfold datetime_utils.parse_iso8601.
  by rewrite iso8601_fields_isoformat, astimezone_utc_id.
Qed.

(** What [dump] shows for a timestamp the constructor parsed. *)
Lemma parse_iso8601_rendering s c u :
  datetime_utils.iso8601_fields s = Some c ->
  datetime_utils.parse_iso8601 (Some s) = Ok u ->
  astimezone_utc c = Ok u /\ astimezone_utc u = Ok u
  /\ utcoffset u = 0 /\ instant u = instant c
  /\ datetime_utils.iso8601_fields (isoformat u) = Some u.
Proof.
  intros Hs Hp.
  apply parse_iso8601_inv in Hp as (s' & c' & [= <-] & Hs' & Hu).
  rewrite Hs in Hs'. injection Hs' as <-.
  pose proof (astimezone_utc_instant _ _ Hu) as [Hoff Hi].
  pose proof (iso8601_fields_valid _ _ Hs) as Hv.
  apply valid_inv in Hv as (_ & _ & _ & _ & _ & _ & Hus & _).
  pose proof (astimezone_utc_result_valid _ _ Hu Hus) as Hvu.
  repeat split; try done.
  - by apply astimezone_utc_idem in Hu.
  - by apply iso8601_fields_isoformat.
Qed.


Lemma dump_created_parsed self s c u :
  Bookmark.well_formed self = true ->
  Bookmark._created self = Some u ->
  datetime_utils.iso8601_fields s = Some c ->
  datetime_utils.parse_iso8601 (Some s) = Ok u ->
  exists d,
    astimezone_utc c = Ok u /\ utcoffset u = 0 /\ instant u = instant c
    /\ datetime_utils.iso8601_fields (isoformat u) = Some u
    /\ Bookmark.dump self = Ok d
    /\ d !! "created"%string = Some (VStr (isoformat u)).
Proof.
  intros Hwf Hcr Hs Hp.
  destruct (parse_iso8601_rendering _ _ _ Hs Hp) as (Hu & Hfix & Hoff & Hi & Hiso).
  apply dump_lookups in Hwf
    as (m & um & cv & d & _ & _ & Hcv & Hd & _ & _ & _ & _ & Hdc & _).
  rewrite Hcr in Hcv. destruct Hcv as (uc & Huc & ->).
  rewrite Hfix in Huc. injection Huc as <-. eauto 10.
Qed.

Lemma dump_modified_parsed self s c u :
  Bookmark.well_formed self = true ->
  Bookmark._modified self = Some u ->
  datetime_utils.iso8601_fields s = Some c ->
  datetime_utils.parse_iso8601 (Some s) = Ok u ->
  exists d,
    astimezone_utc c = Ok u /\ utcoffset u = 0 /\ instant u = instant c
    /\ datetime_utils.iso8601_fields (isoformat u) = Some u
    /\ Bookmark.dump self = Ok d
    /\ d !! "modified"%string = Some (VStr (isoformat u)).
Proof.
  intros Hwf Hmo Hs Hp.
  destruct (parse_iso8601_rendering _ _ _ Hs Hp) as (Hu & Hfix & Hoff & Hi & Hiso).
  apply dump_lookups in Hwf
    as (m & um & cv & d & Hm & Hum & _ & Hd & _ & _ & _ & Hdm & _).
  rewrite Hmo in Hm. injection Hm as <-.
  rewrite Hfix in Hum. injection Hum as <-. eauto 10.
Qed.

Lemma set_created_inv self ts self' :
  Bookmark.well_formed self = true ->
  Bookmark.set_created self ts = Ok self' ->
  exists u, datetime_utils.parse_iso8601 ts = Ok u
            /\ Bookmark._created self' = Some u
            /\ Bookmark.well_formed self' = true.
Proof.
  unfold Bookmark.set_created, Bookmark.well_formed. intros Hwf.
  destruct (datetime_utils.parse_iso8601 ts) as [u|] eqn:E; [|discriminate].
  cbn [mbind result_bind]. intros [= <-]. exists u. cbn.
  apply andb_prop in Hwf as [-> _].
  unfold Bookmark.renders. by rewrite (parse_iso8601_fixed _ _ E).
Qed.

Lemma set_modified_inv self ts self' :
  Bookmark.well_formed self = true ->
  Bookmark.set_modified self ts = Ok self' ->
  exists u, datetime_utils.parse_iso8601 ts = Ok u
            /\ Bookmark._modified self' = Some u
            /\ Bookmark.well_formed self' = true.
Proof.
  unfold Bookmark.set_modified, Bookmark.well_formed. intros Hwf.
  destruct (datetime_utils.parse_iso8601 ts) as [u|] eqn:E; [|discriminate].
  cbn [mbind result_bind]. intros [= <-]. exists u. cbn.
  apply andb_prop in Hwf as [_ ->].
  unfold Bookmark.renders. by rewrite (parse_iso8601_fixed _ _ E).
Qed.

(** C5: when [created] is set from an ISO-8601 string, by the
    constructor or by the setter, the dump shows under created the
    ISO-8601 string of the same instant at offset zero; the same holds
    for [modified]; and [created="2021-01-01T00:00:00-05:00"] is dumped
    as ["2021-01-01T05:00:00+00:00"]. *)
Theorem C5_dump_renders_utc (D : Bookmark.defaults) (a : Bookmark.arguments)
  (b : Bookmark.t) :
  Bookmark.__init__ D a = Ok b ->
  (forall s c,
      Bookmark.arg_created a = Some (Some s) ->
      datetime_utils.iso8601_fields s = Some c ->
      exists u d,
        astimezone_utc c = Ok u /\ utcoffset u = 0 /\ instant u = instant c
        /\ datetime_utils.iso8601_fields (isoformat u) = Some u
        /\ Bookmark.dump b = Ok d
        /\ d !! "created"%string = Some (VStr (isoformat u)))
  /\ (forall s c,
      Bookmark.arg_modified a = Some (Some s) ->
      datetime_utils.iso8601_fields s = Some c ->
      exists u d,
        astimezone_utc c = Ok u /\ utcoffset u = 0 /\ instant u = instant c
        /\ datetime_utils.iso8601_fields (isoformat u) = Some u
        /\ Bookmark.dump b = Ok d
        /\ d !! "modified"%string = Some (VStr (isoformat u)))
  /\ (forall s c b',
      Bookmark.set_created b (Some s) = Ok b' ->
      datetime_utils.iso8601_fields s = Some c ->
      exists u d,
        astimezone_utc c = Ok u /\ utcoffset u = 0 /\ instant u = instant c
        /\ datetime_utils.iso8601_fields (isoformat u) = Some u
        /\ Bookmark.dump b' = Ok d
        /\ d !! "created"%string = Some (VStr (isoformat u)))
  /\ (forall s c b',
      Bookmark.set_modified b (Some s) = Ok b' ->
      datetime_utils.iso8601_fields s = Some c ->
      exists u d,
        astimezone_utc c = Ok u /\ utcoffset u = 0 /\ instant u = instant c
        /\ datetime_utils.iso8601_fields (isoformat u) = Some u
        /\ Bookmark.dump b' = Ok d
        /\ d !! "modified"%string = Some (VStr (isoformat u)))
  /\ (Bookmark.arg_created a = Some (Some "2021-01-01T00:00:00-05:00"%string) ->
      exists d,
        Bookmark.dump b = Ok d
        /\ d !! "created"%string = Some (VStr "2021-01-01T05:00:00+00:00")).
Proof.
  intros Hb.
  pose proof (Bookmark_init_well_formed _ _ _ Hb) as Hwf.
  apply Bookmark_init_inv in Hb
    as (title & url & m & _ & _ & Hm & Hc & _ & _ & _ & _ & Hmod & _).
  assert (forall s c,
      Bookmark.arg_created a = Some (Some s) ->
      datetime_utils.iso8601_fields s = Some c ->
      exists u d,
        astimezone_utc c = Ok u /\ utcoffset u = 0 /\ instant u = instant c
        /\ datetime_utils.iso8601_fields (isoformat u) = Some u
        /\ Bookmark.dump b = Ok d
        /\ d !! "created"%string = Some (VStr (isoformat u))) as Hcreated.
  { intros s c Ha Hs. rewrite Ha in Hc. cbn [from_option id] in Hc.
    destruct Hc as (u & Hp & Hcr). exists u.
    by apply (dump_created_parsed b s c u). }
  split; [exact Hcreated|]. split; [|split; [|split]].
  - intros s c Ha Hs. rewrite Ha in Hm. cbn [from_option id] in Hm.
    exists m. by apply (dump_modified_parsed b s c m).
  - intros s c b' Hset Hs.
    apply set_created_inv in Hset as (u & Hp & Hcr & Hwf'); [|done].
    exists u. by apply (dump_created_parsed b' s c u).
  - intros s c b' Hset Hs.
    apply set_modified_inv in Hset as (u & Hp & Hmo & Hwf'); [|done].
    exists u. by apply (dump_modified_parsed b' s c u).
  - intros Ha.
    destruct (Hcreated _ (mk_datetime 2021 1 1 0 0 0 0 (-18000)) Ha)
      as (u & d & Hu & _ & _ & _ & Hd & Hl); [by vm_compute|].
    assert (u = mk_datetime 2021 1 1 5 0 0 0 0) as ->.
    { assert (astimezone_utc (mk_datetime 2021 1 1 0 0 0 0 (-18000))
              = Ok (mk_datetime 2021 1 1 5 0 0 0 0)) as E by (by vm_compute).
      rewrite E in Hu. by injection Hu. }
    exists d. split; [done|]. exact Hl.
Qed.

(** C3: a call without [modified] stores the clock reading taken when
    the class body was executed, whatever the time of the call; two calls
    at different times give the same value.  The same holds for
    [created]. *)
Theorem C3_defaults_are_definition_time
  (now_modified now_created t1 t2 : datetime)
  (a : Bookmark.arguments) (b : Bookmark.t) :
  valid now_modified = true -> utcoffset now_modified = 0 ->
  valid now_created = true -> utcoffset now_created = 0 ->
  Bookmark.construct_at (Bookmark.define now_modified now_created) t1 a = Ok b ->
  Bookmark.construct_at (Bookmark.define now_modified now_created) t2 a = Ok b
  /\ (Bookmark.arg_modified a = None -> Bookmark._modified b = Some now_modified)
  /\ (Bookmark.arg_created a = None -> Bookmark._created b = Some now_created).
Proof.
  intros Hvm Hom Hvc Hoc Hb. unfold Bookmark.construct_at in *.
  split; [done|].
  apply Bookmark_init_inv in Hb
    as (title & url & m & _ & _ & Hm & Hc & _ & _ & _ & _ & Hmod & _).
  split.
  - intros Ha. rewrite Ha in Hm.
    change (datetime_utils.parse_iso8601 (Some (isoformat now_modified)) = Ok m)
      in Hm.
    rewrite parse_iso8601_isoformat_id in Hm by done. congruence.
  - intros Ha. rewrite Ha in Hc.
    change (exists c, datetime_utils.parse_iso8601 (Some (isoformat now_created))
                      = Ok c /\ Bookmark._created b = Some c) in Hc.
    destruct Hc as (c & Hp & ->).
    rewrite parse_iso8601_isoformat_id in Hp by done. congruence.
Qed.


(** C9: a bookmark constructed with a title and a url dumps to a mapping
    that holds them unchanged; with no other argument the construction
    and the dump succeed for every title and url. *)
Theorem C9_title_url_round_trip (now_modified now_created : datetime)
  (title url : string) :
  valid now_modified = true -> utcoffset now_modified = 0 ->
  valid now_created = true -> utcoffset now_created = 0 ->
  (exists b d,
      Bookmark.__init__ (Bookmark.define now_modified now_created)
        (Bookmark.mk_arguments (Some title) (Some url) None None None None)
      = Ok b
      /\ Bookmark.dump b = Ok d
      /\ d !! "title"%string = Some (VStr title)
      /\ d !! "url"%string = Some (VStr url))
  /\ (forall D a b,
      Bookmark.arg_title a = Some title -> Bookmark.arg_url a = Some url ->
      Bookmark.__init__ D a = Ok b ->
      exists d,
        Bookmark.dump b = Ok d
        /\ d !! "title"%string = Some (VStr title)
        /\ d !! "url"%string = Some (VStr url)).
Proof.
  intros Hvm Hom Hvc Hoc.
  assert (forall D a b,
      Bookmark.arg_title a = Some title -> Bookmark.arg_url a = Some url ->
      Bookmark.__init__ D a = Ok b ->
      exists d,
        Bookmark.dump b = Ok d
        /\ d !! "title"%string = Some (VStr title)
        /\ d !! "url"%string = Some (VStr url)) as Hgen.
  { intros D a b Ht Hu Hb.
    pose proof (Bookmark_init_well_formed _ _ _ Hb) as Hwf.
    apply Bookmark_init_inv in Hb
      as (title' & url' & m & Ht' & Hu' & _ & _ & _ & Htitle & Hurl & _).
    apply dump_lookups in Hwf
      as (m' & um & cv & d & _ & _ & _ & Hd & _ & Hdt & Hdu & _).
    exists d. rewrite Hdt, Hdu, Htitle, Hurl. split; [done|].
    split; congruence. }
  split; [|exact Hgen].
  assert (is_Ok (Bookmark.__init__ (Bookmark.define now_modified now_created)
                   (Bookmark.mk_arguments (Some title) (Some url)
                      None None None None))) as [b Hb].
  { unfold Bookmark.__init__, Bookmark.define. cbn [Bookmark.arg_title
      Bookmark.arg_url Bookmark.arg_notes Bookmark.arg_modified
      Bookmark.arg_created Bookmark.arg_tags from_option id
      Bookmark.modified_default Bookmark.created_default].
    rewrite !parse_iso8601_isoformat_id by done. by eexists. }
  destruct (Hgen _ (Bookmark.mk_arguments (Some title) (Some url)
                      None None None None) b eq_refl eq_refl Hb)
    as (d & ? & ? & ?).
  exists b, d. done.
Qed.

Lemma parses_true ts :
  Bookmark.parses ts = true <-> is_Ok (datetime_utils.parse_iso8601 ts).
Proof.
  unfold Bookmark.parses, is_Ok.
  destruct (datetime_utils.parse_iso8601 ts); split; eauto; try discriminate.
  intros [? ?]. discriminate.
Qed.

Lemma parses_false ts :
  Bookmark.parses ts = false ->
  datetime_utils.parse_iso8601 ts = Err ValidationError.
Proof.
  unfold Bookmark.parses.
  destruct (datetime_utils.parse_iso8601 ts) eqn:E; [discriminate|].
  by rewrite (parse_iso8601_raises _ _ E).
Qed.

(** C7, amended: a call that leaves out [title] or [url] for a bookmark,
    or [name] for a tag, fails with Python's [TypeError]; a call with the
    required parameters and a supplied timestamp that cannot be parsed
    fails with a [ValidationError]; every other call succeeds. *)
Theorem C7_construction_outcome (now_modified now_created : datetime)
  (a : Bookmark.arguments) :
  valid now_modified = true -> utcoffset now_modified = 0 ->
  valid now_created = true -> utcoffset now_created = 0 ->
  (Bookmark.missing_required a = true ->
   Bookmark.__init__ (Bookmark.define now_modified now_created) a
   = Err TypeError)
  /\ (Bookmark.missing_required a = false ->
      Bookmark.supplied_timestamps_parse a = false ->
      Bookmark.__init__ (Bookmark.define now_modified now_created) a
      = Err ValidationError)
  /\ (Bookmark.missing_required a = false ->
      Bookmark.supplied_timestamps_parse a = true ->
      is_Ok (Bookmark.__init__ (Bookmark.define now_modified now_created) a))
  /\ Tag.__init__ None = Err TypeError
  /\ (forall name, is_Ok (Tag.__init__ (Some name))).
Proof.
  intros Hvm Hom Hvc Hoc.
  pose proof (parse_iso8601_isoformat_id _ Hvm Hom) as Hdm.
  pose proof (parse_iso8601_isoformat_id _ Hvc Hoc) as Hdc.
  unfold Bookmark.missing_required, Bookmark.supplied_timestamps_parse,
    Bookmark.__init__, Bookmark.define.
  cbn [Bookmark.modified_default Bookmark.created_default].
  destruct (Bookmark.arg_title a) as [title|];
    [destruct (Bookmark.arg_url a) as [url|]|].
  2,3: repeat split; try done; intros name; by eexists.
  cbv zeta.
  split; [discriminate|]. split; [|split; [|split; [done|by eexists]]].
  - intros _ H. apply andb_false_iff in H as [H|H].
    + destruct (Bookmark.arg_modified a) as [ts|]; [|discriminate].
      cbn [from_option id]. by rewrite (parses_false _ H).
    + destruct (Bookmark.arg_created a) as [[s|]|]; try discriminate.
      cbn [from_option id].
      destruct (datetime_utils.parse_iso8601
                  (default (Some (isoformat now_modified))
                     (Bookmark.arg_modified a))) as [m|e] eqn:E.
      * cbn [mbind result_bind]. by rewrite (parses_false _ H).
      * cbn [mbind result_bind]. by rewrite (parse_iso8601_raises _ _ E).
  - intros _ [Hm Hc]%andb_prop.
    assert (is_Ok (datetime_utils.parse_iso8601
                     (default (Some (isoformat now_modified))
                        (Bookmark.arg_modified a)))) as [m ->].
    { destruct (Bookmark.arg_modified a) as [ts|]; cbn [from_option id].
      - by apply parses_true.
      - rewrite Hdm. by eexists. }
    cbn [mbind result_bind].
    destruct (Bookmark.arg_created a) as [[s|]|]; cbn [from_option id].
    + apply parses_true in Hc as [c ->]. by eexists.
    + by eexists.
    + rewrite Hdc. by eexists.
Qed.

(** C10: [Tag(name)] gives the instance an attribute [tags] holding an
    empty list and leaves the relationship collection [bookmarks]
    untouched; [tags] is not among the mapped attributes of [Tag], whose
    only relationship is [bookmarks]. *)
Theorem C10_tag_init_writes_tags (name : string) :
  exists self,
    Tag.__init__ (Some name) = Ok self
    /\ Tag.tags self = Some []
    /\ Tag.bookmarks self = None
    /\ Tag.name self = name
    /\ ("tags"%string ∉ (fst <$> Tag.declared))
    /\ (fst <$> List.filter (fun kv => db.is_relation (snd kv)) Tag.declared)
       = ["bookmarks"%string].
Proof.
  eexists. split; [reflexivity|]. simpl. repeat split.
  rewrite !not_elem_of_cons. repeat split; try discriminate.
  apply not_elem_of_nil.
Qed.

End timestamps.

(** ** The entity store *)

Section persistence.

Lemma next_id_fresh {A} (rows : gmap Z A) : rows !! store.next_id rows = None.
Proof.
  unfold store.next_id.
  assert (forall k, is_Some (rows !! k) ->
                    k <= map_fold (fun k _ acc => Z.max k acc) 0 rows) as Hmax.
  { apply (map_fold_weak_ind
             (fun acc (m : gmap Z A) => forall k, is_Some (m !! k) -> k <= acc)).
    - intros k [? H]. by rewrite lookup_empty in H.
    - intros i x m acc Hi IH k Hk.
      destruct (decide (k = i)) as [->|Hne]; [lia|].
      rewrite lookup_insert_ne in Hk by done. specialize (IH k Hk). lia. }
  destruct (rows !! _) eqn:E; [|done].
  specialize (Hmax _ (mk_is_Some _ _ E)). lia.
Qed.

Lemma declared_unique_name : store.declared_unique Tag.declared "name" = true.
Proof. reflexivity. Qed.

Lemma name_taken_true rows self n :
  store.name_taken rows self n = true
  <-> exists i, rows !! i = Some n /\ self <> Some i.
Proof.
  unfold store.name_taken. rewrite existsb_exists. split.
  - intros ([i n'] & Hin & H). simpl in H.
    apply andb_prop in H as [Hn Hs]. apply String.eqb_eq in Hn. subst n'.
    apply negb_true_iff, bool_decide_eq_false in Hs.
    exists i. split; [|done].
    apply elem_of_map_to_list. by apply list_elem_of_In.
  - intros (i & Hi & Hs). exists (i, n). split.
    + apply list_elem_of_In. by apply elem_of_map_to_list.
    + simpl. rewrite String.eqb_refl. simpl.
      apply negb_true_iff, bool_decide_eq_false. done.
Qed.

Lemma name_taken_false rows self n :
  store.name_taken rows self n = false ->
  forall i, rows !! i = Some n -> self = Some i.
Proof.
  intros H i Hi. destruct (decide (self = Some i)) as [|Hne]; [done|].
  assert (store.name_taken rows self n = true) as Ht
    by (apply name_taken_true; eauto).
  congruence.
Qed.

(** A second tag with a name that is taken is refused. *)
Lemma save_tag_duplicate s i x :
  store.tag s !! i = Some (Tag.name x) -> Tag.id x <> Some i ->
  store.save_tag s x = Err ConstraintViolation.
Proof.
  intros Hi Hx. unfold store.save_tag. rewrite declared_unique_name.
  assert (store.name_taken (store.tag s) (Tag.id x) (Tag.name x) = true) as ->
    by (apply name_taken_true; eauto).
  reflexivity.
Qed.

Lemma save_tag_names_unique s x s' x' :
  store.names_unique s -> store.save_tag s x = Ok (s', x') ->
  store.names_unique s'.
Proof.
  unfold store.save_tag. rewrite declared_unique_name. cbn [andb].
  intros Hu.
  destruct (store.name_taken _ _ _) eqn:Ht; [discriminate|].
  intros [= <- <-]. intros j k n. cbn [store.tag].
  pose proof (name_taken_false _ _ _ Ht) as Hfree.
  set (i := default (store.next_id (store.tag s)) (Tag.id x)).
  assert (forall l, store.tag s !! l = Some (Tag.name x) -> l = i) as Hi.
  { intros l Hl. apply Hfree in Hl. subst i. by rewrite Hl. }
  destruct (decide (j = i)) as [->|Hj], (decide (k = i)) as [->|Hk];
    rewrite ?lookup_insert_eq, ?lookup_insert_ne by done.
  - done.
  - intros [= <-] Hk'. by apply Hi in Hk'.
  - intros Hj' [= <-]. by apply Hi in Hj'.
  - apply Hu.
Qed.

Lemma save_tags_names_unique xs : forall s s' xs',
  store.names_unique s -> store.save_tags s xs = Ok (s', xs') ->
  store.names_unique s'.
Proof.
  induction xs as [|x xs IH]; intros s s' xs' Hu; simpl.
  - by intros [= <- <-].
  - destruct (store.save_tag s x) as [[s1 x1]|] eqn:E1; [|discriminate].
    cbn [mbind result_bind].
    destruct (store.save_tags s1 xs) as [[s2 xs1]|] eqn:E2; [|discriminate].
    cbn [mbind result_bind]. intros [= <- <-].
    eapply IH; [|exact E2]. by eapply save_tag_names_unique.
Qed.

Lemma apply_names_unique s o s' :
  store.names_unique s -> store.apply s o = Ok s' -> store.names_unique s'.
Proof.
  intros Hu. destruct o as [x|b|x|b]; simpl.
  - destruct (store.save_tag s x) as [[s1 x1]|] eqn:E; [|discriminate].
    intros [= <-]. by eapply save_tag_names_unique.
  - unfold store.save_bookmark.
    destruct (store.save_tags s (Bookmark.tags b)) as [[s1 xs]|] eqn:E;
      [|discriminate].
    intros [= <-]. intros j k n. cbn [store.tag].
    by eapply save_tags_names_unique.
  - unfold store.delete_tag.
    destruct (Tag.id x) as [i|]; [|discriminate].
    destruct (store.tag s !! i); [|discriminate].
    intros [= <-]. intros j k n. cbn [store.tag].
    rewrite !lookup_delete_Some. intros [_ ?] [_ ?]. by eapply Hu.
  - unfold store.delete_bookmark.
    destruct (Bookmark.id b) as [i|]; [|discriminate].
    destruct (store.bookmark s !! i); [|discriminate].
    intros [= <-]. exact Hu.
Qed.

Lemma run_names_unique os : forall s,
  store.names_unique s -> store.names_unique (store.run s os).
Proof.
  induction os as [|o os IH]; intros s Hu; simpl; [done|].
  destruct (store.apply s o) eqn:E; [|by apply IH].
  apply IH. by eapply apply_names_unique.
Qed.

(** C8: saving a second tag whose name is that of a persisted tag fails
    with [ConstraintViolation]; every operation that succeeds keeps the
    names of the persisted tags distinct, and so does every sequence of
    operations from the empty store. *)
Theorem C8_tag_names_unique :
  (forall s i x,
      store.tag s !! i = Some (Tag.name x) -> Tag.id x <> Some i ->
      store.save_tag s x = Err ConstraintViolation)
  /\ (forall s o s',
      store.names_unique s -> store.apply s o = Ok s' -> store.names_unique s')
  /\ (forall os, store.names_unique (store.run store.empty os)).
Proof.
  split; [exact save_tag_duplicate|]. split; [exact apply_names_unique|].
  intros os. apply run_names_unique. intros i j n H.
  change (store.tag store.empty) with (∅ : gmap Z string) in H.
  by rewrite lookup_empty in H.
Qed.

End persistence.

(** ** Evaluations *)

Example isoformat_utc :
  pydatetime.isoformat (pydatetime.mk_datetime 2021 1 1 5 0 0 0 0)
  = "2021-01-01T05:00:00+00:00"%string.
Proof. reflexivity. Qed.

Example astimezone_utc_minus_five :
  pydatetime.astimezone_utc (pydatetime.mk_datetime 2021 1 1 0 0 0 0 (-18000))
  = Ok (pydatetime.mk_datetime 2021 1 1 5 0 0 0 0).
Proof. vm_compute. reflexivity. Qed.

Example astimezone_utc_overflow :
  pydatetime.astimezone_utc (pydatetime.mk_datetime 1 1 1 0 0 0 0 18000)
  = Err OverflowError.
Proof. vm_compute. reflexivity. Qed.

Example parse_iso8601_samples :
  datetime_utils.parse_iso8601 (Some "2021-02-29T00:00:00.25Z"%string)
  = Err ValidationError
  /\ datetime_utils.parse_iso8601 (Some "2020-02-29T23:59:59.25"%string)
     = Ok (pydatetime.mk_datetime 2020 2 29 23 59 59 250000 0)
  /\ datetime_utils.parse_iso8601
       (Some "2020-12-31T23:59:59.999999-01:30"%string)
     = Ok (pydatetime.mk_datetime 2021 1 1 1 29 59 999999 0)
  /\ datetime_utils.parse_iso8601 (Some "yesterday"%string)
     = Err ValidationError
  /\ datetime_utils.parse_iso8601 None = Err ValidationError.
Proof. vm_compute. repeat split; reflexivity. Qed.

Example construct_full :
  Bookmark.__init__ sample.D sample.full = Ok sample.b_full.
Proof. vm_compute. reflexivity. Qed.

(** Two calls [Bookmark(title="t", url="u")], months apart, both carry
    the time at which the class was defined. *)
Example construct_twice :
  Bookmark.construct_at sample.D sample.first_call sample.minimal
  = Ok sample.b_minimal
  /\ Bookmark.construct_at sample.D sample.second_call sample.minimal
     = Ok sample.b_minimal
  /\ Bookmark._modified sample.b_minimal = Some sample.import_time
  /\ sample.import_time <> sample.first_call
  /\ sample.import_time <> sample.second_call.
Proof. vm_compute. repeat split; try reflexivity; discriminate. Qed.

(** ** The claims at sample inputs *)

Lemma C1_witness :
  Bookmark.well_formed sample.b_full = true
  /\ exists d,
       Bookmark.dump sample.b_full = Ok d
       /\ d !! "title"%string = Some (VStr "Rocq")
       /\ d !! "notes"%string = Some (VStr "prover")
       /\ d !! "tags"%string
          = Some (VList [VDict (Tag.dump sample.work)]).
Proof.
  split; [reflexivity|].
  destruct (C1_bookmark_dump_keys sample.b_full eq_refl)
    as (d & Hd & _ & Ht & _ & _ & _ & _ & Hn & _ & Htags).
  exists d. split; [exact Hd|]. split; [exact Ht|].
  split; [apply Hn; discriminate|apply Htags; discriminate].
Defined.

Lemma C3_witness :
  pydatetime.valid sample.import_time = true
  /\ pydatetime.utcoffset sample.import_time = 0
  /\ pydatetime.valid sample.import_time' = true
  /\ pydatetime.utcoffset sample.import_time' = 0
  /\ Bookmark.construct_at sample.D sample.first_call sample.minimal
     = Ok sample.b_minimal
  /\ Bookmark.construct_at sample.D sample.second_call sample.minimal
     = Ok sample.b_minimal
  /\ Bookmark._modified sample.b_minimal = Some sample.import_time
  /\ Bookmark._created sample.b_minimal = Some sample.import_time'.
Proof.
  assert (Bookmark.construct_at sample.D sample.first_call sample.minimal
          = Ok sample.b_minimal) as H by (vm_compute; reflexivity).
  do 4 (split; [reflexivity|]). split; [exact H|].
  destruct (C3_defaults_are_definition_time sample.import_time
              sample.import_time' sample.first_call sample.second_call
              sample.minimal sample.b_minimal eq_refl eq_refl eq_refl eq_refl H)
    as (H2 & Hm & Hc).
  split; [exact H2|]. split; [exact (Hm eq_refl)|exact (Hc eq_refl)].
Defined.

Lemma C4_witness :
  Bookmark.arg_created sample.created_none = Some None
  /\ Bookmark.__init__ sample.D sample.created_none = Ok sample.b_created_none
  /\ Bookmark._created sample.b_created_none = None
  /\ exists d, Bookmark.dump sample.b_created_none = Ok d
               /\ d !! "created"%string = Some VNone.
Proof.
  assert (Bookmark.__init__ sample.D sample.created_none
          = Ok sample.b_created_none) as H by (vm_compute; reflexivity).
  split; [reflexivity|]. split; [exact H|].
  exact (C4_created_none_dumps_null sample.D sample.created_none
           sample.b_created_none eq_refl H).
Defined.

Lemma C5_witness :
  Bookmark.__init__ sample.D sample.created_new_york
  = Ok sample.b_created_new_york
  /\ Bookmark.arg_created sample.created_new_york
     = Some (Some "2021-01-01T00:00:00-05:00"%string)
  /\ exists d, Bookmark.dump sample.b_created_new_york = Ok d
               /\ d !! "created"%string
                  = Some (VStr "2021-01-01T05:00:00+00:00").
Proof.
  assert (Bookmark.__init__ sample.D sample.created_new_york
          = Ok sample.b_created_new_york) as H by (vm_compute; reflexivity).
  split; [exact H|]. split; [reflexivity|].
  destruct (C5_dump_renders_utc sample.D sample.created_new_york
              sample.b_created_new_york H) as (_ & _ & _ & _ & Hex).
  exact (Hex eq_refl).
Defined.

Lemma C6_witness :
  Bookmark.arg_created sample.created_none = Some None
  /\ Bookmark.__init__ sample.D sample.created_none = Ok sample.b_created_none
  /\ Bookmark.created sample.b_created_none = Err AttributeError
  /\ (forall truncate_str,
         Bookmark.__repr__ truncate_str sample.b_created_none
         = Err AttributeError)
  /\ exists d, Bookmark.dump sample.b_created_none = Ok d
               /\ d !! "created"%string = Some VNone.
Proof.
  assert (Bookmark.__init__ sample.D sample.created_none
          = Ok sample.b_created_none) as H by (vm_compute; reflexivity).
  split; [reflexivity|]. split; [exact H|].
  exact (C6_created_property_raises sample.D sample.created_none
           sample.b_created_none eq_refl H).
Defined.

(** C7 as stated fails: a call without [title] ends with [TypeError],
    not with a [ValidationError]. *)
Lemma C7_missing_title_raises_TypeError :
  Bookmark.arg_title sample.no_title = None
  /\ Bookmark.__init__ sample.D sample.no_title = Err TypeError
  /\ Bookmark.__init__ sample.D sample.no_title <> Err ValidationError.
Proof. split; [reflexivity|]. split; [reflexivity|discriminate]. Qed.

Lemma C7_witness :
  pydatetime.valid sample.import_time = true
  /\ pydatetime.utcoffset sample.import_time = 0
  /\ pydatetime.valid sample.import_time' = true
  /\ pydatetime.utcoffset sample.import_time' = 0
  /\ Bookmark.missing_required sample.no_title = true
  /\ Bookmark.__init__ sample.D sample.no_title = Err TypeError
  /\ Bookmark.missing_required sample.full = false
  /\ Bookmark.supplied_timestamps_parse sample.full = true
  /\ is_Ok (Bookmark.__init__ sample.D sample.full).
Proof.
  do 4 (split; [reflexivity|]).
  split; [reflexivity|]. split.
  - exact (proj1 (C7_construction_outcome sample.import_time
                    sample.import_time' sample.no_title
                    eq_refl eq_refl eq_refl eq_refl) eq_refl).
  - split; [reflexivity|]. split; [vm_compute; reflexivity|].
    refine (proj1 (proj2 (proj2 (C7_construction_outcome sample.import_time
                    sample.import_time' sample.full
                    eq_refl eq_refl eq_refl eq_refl))) eq_refl _).
    vm_compute; reflexivity.
Defined.

Lemma C8_witness :
  store.tag sample.one_tag !! 1 = Some (Tag.name sample.work)
  /\ Tag.id sample.work <> Some 1
  /\ store.save_tag sample.one_tag sample.work = Err ConstraintViolation
  /\ store.apply store.empty (store.SaveTag sample.work) = Ok sample.one_tag
  /\ store.names_unique sample.one_tag.
Proof.
  assert (store.tag sample.one_tag !! 1 = Some (Tag.name sample.work)) as H1
    by reflexivity.
  assert (Tag.id sample.work <> Some 1) as H2 by discriminate.
  assert (store.apply store.empty (store.SaveTag sample.work)
          = Ok sample.one_tag) as H3 by (vm_compute; reflexivity).
  destruct C8_tag_names_unique as (Hdup & Hstep & Hrun).
  split; [exact H1|]. split; [exact H2|].
  split; [exact (Hdup sample.one_tag 1 sample.work H1 H2)|].
  split; [exact H3|].
  exact (Hstep store.empty (store.SaveTag sample.work) sample.one_tag
           (Hrun []) H3).
Defined.

Lemma C9_witness :
  pydatetime.valid sample.import_time = true
  /\ pydatetime.utcoffset sample.import_time = 0
  /\ pydatetime.valid sample.import_time' = true
  /\ pydatetime.utcoffset sample.import_time' = 0
  /\ exists b d,
       Bookmark.__init__ sample.D sample.minimal = Ok b
       /\ Bookmark.dump b = Ok d
       /\ d !! "title"%string = Some (VStr "t")
       /\ d !! "url"%string = Some (VStr "u").
Proof.
  do 4 (split; [reflexivity|]).
  exact (proj1 (C9_title_url_round_trip sample.import_time sample.import_time'
                  "t" "u" eq_refl eq_refl eq_refl eq_refl)).
Defined.

(** * Further properties of the models *)

Section properties.

Import pydatetime.

Lemma Ok_inj {A} (x y : A) : Ok x = Ok y -> x = y.
Proof. by intros [= ->]. Qed.

(** The conversion to UTC succeeds exactly on the instants a [datetime]
    can hold. *)
Lemma astimezone_utc_range d :
  0 <= microsecond d <= 999999 ->
  (is_Ok (astimezone_utc d)
   <-> instant utc_min <= instant d <= instant utc_max)
  /\ (astimezone_utc d = Err OverflowError
      <-> ~ (instant utc_min <= instant d <= instant utc_max)).
Proof.
  intros Hus.
  assert (instant utc_min = 86400000000) as -> by reflexivity.
  assert (instant utc_max = 315537983999999999) as -> by reflexivity.
  unfold astimezone_utc, instant, is_Ok. cbv zeta.
  set (s := toordinal d * 86400 + seconds_of_day d - utcoffset d).
  unfold _MAXORDINAL.
  destruct ((0 <? s / 86400) && (s / 86400 <=? 3652059)) eqn:Hr.
  - apply andb_prop in Hr as [H1%Z.ltb_lt H2%Z.leb_le].
    destruct (_ord2ymd (s / 86400)) as [[y m] dd].
    split; split; try discriminate.
    + intros _. zdiv.
    + by eexists.
    + intros H. exfalso. apply H. zdiv.
  - apply andb_false_iff in Hr as [H%Z.ltb_ge|H%Z.leb_gt].
    + split; split; try done.
      * intros [? ?]; discriminate.
      * intros ?. exfalso. zdiv.
      * intros _ ?. zdiv.
    + split; split; try done.
      * intros [? ?]; discriminate.
      * intros ?. exfalso. zdiv.
      * intros _ ?. zdiv.
Qed.

(** X1: what the properties [created] and [modified] return is at offset
    zero, denotes the instant of the stored value, and is left as it is
    by a further conversion to UTC. *)
Theorem X1_properties_return_utc (self : Bookmark.t) (u : datetime) :
  (Bookmark.created self = Ok u ->
   exists c, Bookmark._created self = Some c
             /\ utcoffset u = 0 /\ instant u = instant c
             /\ astimezone_utc u = Ok u)
  /\ (Bookmark.modified self = Ok u ->
      exists m, Bookmark._modified self = Some m
                /\ utcoffset u = 0 /\ instant u = instant m
                /\ astimezone_utc u = Ok u).
Proof.
  unfold Bookmark.created, Bookmark.modified. split.
  - destruct (Bookmark._created self) as [c|]; [|discriminate].
    intros H. exists c. split; [done|].
    destruct (astimezone_utc_instant _ _ H). split; [done|]. split; [done|].
    by apply astimezone_utc_idem in H.
  - destruct (Bookmark._modified self) as [m|]; [|discriminate].
    intros H. exists m. split; [done|].
    destruct (astimezone_utc_instant _ _ H). split; [done|]. split; [done|].
    by apply astimezone_utc_idem in H.
Qed.

(** X2: the property [created] raises [AttributeError] exactly when
    [_created] is not set, and, for a stored value that is a valid
    [datetime], [OverflowError] exactly when its instant lies outside
    [utc_min .. utc_max]; in between it returns.  The same holds for
    [modified]. *)
Theorem X2_property_errors (self : Bookmark.t) :
  (Bookmark.created self = Err AttributeError <-> Bookmark._created self = None)
  /\ (Bookmark.modified self = Err AttributeError
      <-> Bookmark._modified self = None)
  /\ (forall c, Bookmark._created self = Some c -> valid c = true ->
        (is_Ok (Bookmark.created self)
         <-> instant utc_min <= instant c <= instant utc_max)
        /\ (Bookmark.created self = Err OverflowError
            <-> ~ (instant utc_min <= instant c <= instant utc_max)))
  /\ (forall m, Bookmark._modified self = Some m -> valid m = true ->
        (is_Ok (Bookmark.modified self)
         <-> instant utc_min <= instant m <= instant utc_max)
        /\ (Bookmark.modified self = Err OverflowError
            <-> ~ (instant utc_min <= instant m <= instant utc_max))).
Proof.
  assert (forall d, astimezone_utc d <> Err AttributeError) as Hne.
  { intros d. unfold astimezone_utc. cbv zeta.
    destruct (_ && _); [|discriminate].
    by destruct (_ord2ymd _) as [[? ?] ?]. }
  unfold Bookmark.created, Bookmark.modified.
  split; [|split; [|split]].
  - destruct (Bookmark._created self) as [c|]; [|done].
    split; [intros H; by apply Hne in H|discriminate].
  - destruct (Bookmark._modified self) as [c|]; [|done].
    split; [intros H; by apply Hne in H|discriminate].
  - intros c -> Hv. apply astimezone_utc_range.
    apply valid_inv in Hv. lia.
  - intros m -> Hv. apply astimezone_utc_range.
    apply valid_inv in Hv. lia.
Qed.


Lemma dump_is_Ok_well_formed self :
  is_Ok (Bookmark.dump self) -> Bookmark.well_formed self = true.
Proof.
  unfold Bookmark.dump, Bookmark.modified, Bookmark.well_formed,
    Bookmark.renders.
  intros [d Hd].
  destruct (Bookmark._modified self) as [m|]; [|discriminate].
  destruct (astimezone_utc m) as [um|]; [|discriminate].
  cbn [mbind result_bind truth] in Hd.
  destruct (astimezone_utc um) as [um'|]; [|discriminate].
  cbn [mbind result_bind] in Hd.
  destruct (Bookmark._created self) as [c|]; [|done].
  cbn [truth] in Hd.
  destruct (astimezone_utc c); [done|discriminate].
Qed.

Lemma dump_is_Ok_iff self :
  is_Ok (Bookmark.dump self) <-> Bookmark.well_formed self = true.
Proof.
  split; [apply dump_is_Ok_well_formed|].
  intros (m & um & cv & d & _ & _ & _ & Hd & _)%dump_lookups. by exists d.
Qed.

(** X3: [dump] returns exactly on the bookmarks whose [_modified] is set
    and whose timestamps convert to UTC.  With [_modified] not set it
    raises [AttributeError] (the [else None] of the modified entry is
    never taken), and it raises nothing but [AttributeError] and
    [OverflowError]. *)
Theorem X3_dump_outcome (self : Bookmark.t) :
  (is_Ok (Bookmark.dump self) <-> Bookmark.well_formed self = true)
  /\ (Bookmark._modified self = None ->
      Bookmark.dump self = Err AttributeError)
  /\ (forall e, Bookmark.dump self = Err e ->
        (e = AttributeError /\ Bookmark._modified self = None)
        \/ (e = OverflowError /\ Bookmark._modified self <> None))
  /\ (forall d, Bookmark.dump self = Ok d ->
        exists s, d !! "modified"%string = Some (VStr s)).
Proof.
  split; [|split; [|split]].
  - apply dump_is_Ok_iff.
  - unfold Bookmark.dump, Bookmark.modified. by intros ->.
  - intros e.
    assert (forall d e', astimezone_utc d = Err e' -> e' = OverflowError) as Hov.
    { intros d e'. unfold astimezone_utc. cbv zeta.
      destruct (_ && _); [|congruence].
      by destruct (_ord2ymd _) as [[? ?] ?]. }
    unfold Bookmark.dump, Bookmark.modified.
    destruct (Bookmark._modified self) as [m|]; [|intros [= <-]; by left].
    intros H. right. split; [|done].
    destruct (astimezone_utc m) as [um|e1] eqn:E1;
      [|apply Hov in E1; cbn [mbind result_bind] in H; congruence].
    cbn [mbind result_bind truth] in H.
    destruct (astimezone_utc um) as [um'|e2] eqn:E2;
      [|apply Hov in E2; cbn [mbind result_bind] in H; congruence].
    cbn [mbind result_bind] in H.
    destruct (Bookmark._created self) as [c|]; [|discriminate].
    cbn [truth] in H.
    destruct (astimezone_utc c) as [uc|e3] eqn:E3; [discriminate|].
    apply Hov in E3. cbn [mbind result_bind] in H. congruence.
  - intros d Hd.
    assert (Bookmark.well_formed self = true) as Hwf
      by (apply dump_is_Ok_well_formed; by exists d).
    apply dump_lookups in Hwf
      as (m & um & cv & d' & _ & _ & _ & Hd' & _ & _ & _ & Hm & _).
    rewrite Hd in Hd'. injection Hd' as <-. eauto.
Qed.

(** X4: the dump shows under modified and created the [isoformat] of
    what the properties [modified] and [created] return, and [None]
    under created when [_created] is not set. *)
Theorem X4_dump_shows_properties (self : Bookmark.t) :
  Bookmark.well_formed self = true ->
  exists d,
    Bookmark.dump self = Ok d
    /\ (exists u, Bookmark.modified self = Ok u
                  /\ d !! "modified"%string = Some (VStr (isoformat u)))
    /\ (Bookmark._created self = None -> d !! "created"%string = Some VNone)
    /\ (Bookmark._created self <> None ->
        exists u, Bookmark.created self = Ok u
                  /\ d !! "created"%string = Some (VStr (isoformat u))).
Proof.
  intros Hwf.
  apply dump_lookups in Hwf
    as (m & um & cv & d & Hm & Hum & Hcv & Hd & _ & _ & _ & Hdm & Hdc & _).
  exists d. split; [done|].
  unfold Bookmark.modified, Bookmark.created. rewrite Hm.
  split; [eauto|].
  destruct (Bookmark._created self) as [c|].
  - destruct Hcv as (uc & Huc & ->). split; [discriminate|]. eauto.
  - subst cv. split; [done|]. intros H. by destruct H.
Qed.

(** The keys of a mapping built by [filter_dict] are among those it was
    given. *)
Lemma filter_dict_keys (l : list (string * value)) keys k :
  is_Some (utils.filter_dict (list_to_map l) keys !! k) -> k ∈ l.*1.
Proof.
  rewrite filter_dict_lookup. intros [v Hv].
  destruct (list_to_map l !! k) as [w|] eqn:E; [|discriminate].
  apply elem_of_list_to_map_2 in E.
  apply list_elem_of_fmap. by exists (k, w).
Qed.

(** X5: a dumped bookmark holds no key but id, title, url, notes,
    modified, created and tags, and a dumped tag none but id, name and
    bookmarks; the attribute [tags] that [Tag.__init__] sets never
    reaches the dump of a tag. *)
Theorem X5_dump_keys_bounded :
  (forall self d k,
      Bookmark.dump self = Ok d -> is_Some (d !! k) ->
      k ∈ [ "id"%string; "title"%string; "url"%string; "notes"%string;
            "modified"%string; "created"%string; "tags"%string ])
  /\ (forall (self : Tag.t) k,
      is_Some (Tag.dump self !! k) ->
      k ∈ [ "id"%string; "name"%string; "bookmarks"%string ])
  /\ (forall self : Tag.t, Tag.dump self !! "tags"%string = None).
Proof.
  split; [|split].
  - intros self d k Hd Hk.
    assert (Bookmark.well_formed self = true) as Hwf
      by (apply dump_is_Ok_well_formed; by exists d).
    apply dump_well_formed in Hwf as (m & um & cv & _ & _ & _ & Hd').
    rewrite Hd in Hd'. apply Ok_inj in Hd'. subst d.
    apply filter_dict_keys in Hk. exact Hk.
  - intros self k Hk. unfold Tag.dump in Hk.
    apply filter_dict_keys in Hk. exact Hk.
  - intros self. destruct (Tag.dump self !! "tags"%string) eqn:E; [|done].
    assert (is_Some (Tag.dump self !! "tags"%string)) as Hk by (by rewrite E).
    unfold Tag.dump in Hk. apply filter_dict_keys in Hk.
    cbn [fmap list_fmap fst] in Hk. rewrite !elem_of_cons in Hk.
    destruct Hk as [?|[?|[?|?%elem_of_nil]]]; done.
Qed.


(** What the parser returns is a valid UTC value. *)
Lemma parse_iso8601_valid ts u :
  datetime_utils.parse_iso8601 ts = Ok u ->
  valid u = true /\ utcoffset u = 0.
Proof.
  intros (s & c & _ & Hs & Hu)%parse_iso8601_inv.
  pose proof (iso8601_fields_valid _ _ Hs) as Hv.
  apply valid_inv in Hv as (_ & _ & _ & _ & _ & _ & Hus & _).
  split; [by eapply astimezone_utc_result_valid|].
  by apply astimezone_utc_instant in Hu as [? _].
Qed.

Lemma parse_iso8601_again ts u :
  datetime_utils.parse_iso8601 ts = Ok u ->
  datetime_utils.parse_iso8601 (Some (isoformat u)) = Ok u.
Proof.
  intros [Hv Hoff]%parse_iso8601_valid.
  by apply parse_iso8601_isoformat_id.
Qed.

(** X6: for a bookmark constructed without tags, calling the constructor
    again with its title, url and notes and with the strings (or [None])
    its dump shows under modified and created gives a bookmark with the
    same title, url, notes, [_modified] and [_created], whatever the
    defaults of the class then are. *)
Theorem X6_rebuild_from_dump (D D' : Bookmark.defaults)
  (a : Bookmark.arguments) (b : Bookmark.t) :
  Bookmark.__init__ D a = Ok b ->
  Bookmark.tags b = [] ->
  exists d sm created b',
    Bookmark.dump b = Ok d
    /\ d !! "modified"%string = Some (VStr sm)
    /\ d !! "created"%string
       = Some (match created with Some sc => VStr sc | None => VNone end)
    /\ Bookmark.__init__ D'
         (Bookmark.mk_arguments (Some (Bookmark.title b))
            (Some (Bookmark.url b)) (Some (Bookmark.notes b))
            (Some (Some sm)) (Some created) (Some []))
       = Ok b'
    /\ Bookmark.title b' = Bookmark.title b
    /\ Bookmark.url b' = Bookmark.url b
    /\ Bookmark.notes b' = Bookmark.notes b
    /\ Bookmark._modified b' = Bookmark._modified b
    /\ Bookmark._created b' = Bookmark._created b.
Proof.
  intros Hb Htags.
  pose proof (Bookmark_init_well_formed _ _ _ Hb) as Hwf.
  apply Bookmark_init_inv in Hb
    as (title & url & m & _ & _ & Hm & Hc & Hid & _ & _ & _ & Hmod & _).
  apply dump_lookups in Hwf
    as (m' & um & cv & d & Hm' & Hum & Hcv & Hd & _ & _ & _ & Hdm & Hdc & _).
  rewrite Hmod in Hm'. injection Hm' as <-.
  rewrite (parse_iso8601_fixed _ _ Hm) in Hum. injection Hum as <-.
  assert (forall created c,
             match created with
             | Some _ => Some <$> datetime_utils.parse_iso8601 created
             | None => Ok None
             end = Ok c ->
             Bookmark._created b = c ->
             exists b',
               Bookmark.__init__ D'
                 (Bookmark.mk_arguments (Some (Bookmark.title b))
                    (Some (Bookmark.url b)) (Some (Bookmark.notes b))
                    (Some (Some (isoformat m))) (Some created) (Some []))
               = Ok b'
               /\ Bookmark.title b' = Bookmark.title b
               /\ Bookmark.url b' = Bookmark.url b
               /\ Bookmark.notes b' = Bookmark.notes b
               /\ Bookmark._modified b' = Bookmark._modified b
               /\ Bookmark._created b' = Bookmark._created b) as Hre.
  { intros created c Hp Hcr. unfold Bookmark.__init__.
    cbn [Bookmark.arg_title Bookmark.arg_url Bookmark.arg_notes
         Bookmark.arg_modified Bookmark.arg_created Bookmark.arg_tags
         from_option id].
    rewrite (parse_iso8601_again _ _ Hm). cbn [mbind result_bind].
    rewrite Hp. cbn [mbind result_bind].
    eexists. split; [reflexivity|]. cbn. repeat split; congruence. }
  destruct (default _ (Bookmark.arg_created a)) as [s|].
  - destruct Hc as (c & Hp & Hcr). rewrite Hcr in Hcv.
    destruct Hcv as (uc & Huc & ->).
    rewrite (parse_iso8601_fixed _ _ Hp) in Huc. injection Huc as <-.
    destruct (Hre (Some (isoformat c)) (Some c)) as (b' & Hb' & Hsame);
      [by rewrite (parse_iso8601_again _ _ Hp)|done|].
    exists d, (isoformat m), (Some (isoformat c)), b'. done.
  - rewrite Hc in Hcv. subst cv.
    destruct (Hre None None) as (b' & Hb' & Hsame); [done|done|].
    exists d, (isoformat m), None, b'. done.
Qed.

(** X7: after [self.created = ts] the property [created] returns what
    the parser made of [ts], and nothing else of the bookmark has
    changed; the assignment raises exactly when the parser does.  The
    same holds for [modified]. *)
Theorem X7_set_then_get (self : Bookmark.t) (ts : option string) :
  (forall self', Bookmark.set_created self ts = Ok self' ->
      Bookmark.created self' = datetime_utils.parse_iso8601 ts
      /\ Bookmark.modified self' = Bookmark.modified self
      /\ Bookmark.id self' = Bookmark.id self
      /\ Bookmark.title self' = Bookmark.title self
      /\ Bookmark.url self' = Bookmark.url self
      /\ Bookmark.notes self' = Bookmark.notes self
      /\ Bookmark.tags self' = Bookmark.tags self)
  /\ (forall self', Bookmark.set_modified self ts = Ok self' ->
      Bookmark.modified self' = datetime_utils.parse_iso8601 ts
      /\ Bookmark.created self' = Bookmark.created self
      /\ Bookmark.id self' = Bookmark.id self
      /\ Bookmark.title self' = Bookmark.title self
      /\ Bookmark.url self' = Bookmark.url self
      /\ Bookmark.notes self' = Bookmark.notes self
      /\ Bookmark.tags self' = Bookmark.tags self)
  /\ (forall e, Bookmark.set_created self ts = Err e
                <-> datetime_utils.parse_iso8601 ts = Err e)
  /\ (forall e, Bookmark.set_modified self ts = Err e
                <-> datetime_utils.parse_iso8601 ts = Err e).
Proof.
  unfold Bookmark.set_created, Bookmark.set_modified.
  destruct (datetime_utils.parse_iso8601 ts) as [u|e0] eqn:E;
    cbn [mbind result_bind].
  - pose proof (parse_iso8601_fixed _ _ E) as Hfix.
    split; [|split; [|split]].
    + intros self' [= <-]. unfold Bookmark.created, Bookmark.modified.
      cbn. by rewrite Hfix.
    + intros self' [= <-]. unfold Bookmark.created, Bookmark.modified.
      cbn. by rewrite Hfix.
    + intros e; split; discriminate.
    + intros e; split; discriminate.
  - split; [discriminate|]. split; [discriminate|].
    split; intros e; split; intros [= ->]; reflexivity.
Qed.

(** X8: [__repr__] returns exactly on the bookmarks that [dump] accepts
    and whose [_created] is set; so wherever [__repr__] returns, [dump]
    returns too. *)
Theorem X8_repr_needs_created (truncate_str : string -> Z -> string)
  (self : Bookmark.t) :
  (is_Ok (Bookmark.__repr__ truncate_str self)
   <-> is_Ok (Bookmark.dump self) /\ Bookmark._created self <> None)
  /\ (is_Ok (Bookmark.__repr__ truncate_str self) ->
      is_Ok (Bookmark.dump self)).
Proof.
  assert (is_Ok (Bookmark.__repr__ truncate_str self)
          <-> Bookmark.well_formed self = true
              /\ Bookmark._created self <> None) as H.
  { unfold Bookmark.__repr__, Bookmark.well_formed, Bookmark.renders,
      Bookmark.modified, Bookmark.created. cbv zeta.
    destruct (Bookmark._modified self) as [m|];
      [|split; [intros [? ?]; discriminate|intros [? _]; discriminate]].
    destruct (astimezone_utc m) as [um|];
      [|split; [intros [? ?]; discriminate|intros [? _]; discriminate]].
    cbn [mbind result_bind andb].
    destruct (Bookmark._created self) as [c|];
      [|split; [intros [? ?]; discriminate|intros [_ ?]; done]].
    destruct (astimezone_utc c) as [uc|]; cbn [mbind result_bind].
    - split; [done|]. intros _. by eexists.
    - split; [intros [? ?]; discriminate|intros [? _]; discriminate]. }
  pose proof (dump_is_Ok_iff self) as Hd.
  rewrite H, Hd. split; [done|]. by intros [? _].
Qed.


Lemma astimezone_utc_same_instant d1 d2 :
  0 <= microsecond d1 <= 999999 -> 0 <= microsecond d2 <= 999999 ->
  instant d1 = instant d2 -> astimezone_utc d1 = astimezone_utc d2.
Proof.
  unfold instant, astimezone_utc. cbv zeta. intros H1 H2 Hi.
  assert (toordinal d1 * 86400 + seconds_of_day d1 - utcoffset d1
          = toordinal d2 * 86400 + seconds_of_day d2 - utcoffset d2
          /\ microsecond d1 = microsecond d2) as [-> ->] by lia.
  reflexivity.
Qed.

(** X9: the properties and the dump depend on the instant stored, not on
    the offset it is stored with: two bookmarks whose valid [_created]
    (or [_modified]) denote the same instant read the same. *)
Theorem X9_offset_is_immaterial (self1 self2 : Bookmark.t) (d1 d2 : datetime) :
  valid d1 = true -> valid d2 = true -> instant d1 = instant d2 ->
  (Bookmark._created self1 = Some d1 -> Bookmark._created self2 = Some d2 ->
   Bookmark.created self1 = Bookmark.created self2)
  /\ (Bookmark._modified self1 = Some d1 -> Bookmark._modified self2 = Some d2 ->
      Bookmark.modified self1 = Bookmark.modified self2).
Proof.
  intros Hv1%valid_inv Hv2%valid_inv Hi.
  assert (astimezone_utc d1 = astimezone_utc d2) as H
    by (apply astimezone_utc_same_instant; [lia|lia|done]).
  unfold Bookmark.created, Bookmark.modified.
  split; intros -> ->; exact H.
Qed.

(** X10: the dump of a bookmark just constructed, read off the
    arguments of the call: notes is there, with the value passed,
    exactly when the call passes a non-empty [notes]; tags is there, as a
    non-empty list, exactly when the call passes a non-empty [tags].
    Leaving them out and passing the empty value give the same
    entries. *)
Theorem X10_dump_of_arguments (D : Bookmark.defaults) (a : Bookmark.arguments)
  (b : Bookmark.t) :
  Bookmark.__init__ D a = Ok b ->
  exists d,
    Bookmark.dump b = Ok d
    /\ d !! "notes"%string
       = match Bookmark.arg_notes a with
         | Some (String c s) => Some (VStr (String c s))
         | Some EmptyString | None => None
         end
    /\ match Bookmark.arg_tags a with
       | Some (_ :: _) => exists v l, d !! "tags"%string = Some (VList (v :: l))
       | Some [] | None => d !! "tags"%string = None
       end.
Proof.
  intros Hb.
  pose proof (Bookmark_init_well_formed _ _ _ Hb) as Hwf.
  apply Bookmark_init_inv in Hb
    as (title & url & m & _ & _ & _ & _ & Hid & _ & _ & Hn & _ & Ht).
  apply dump_lookups in Hwf
    as (m' & um & cv & d & _ & _ & _ & Hd & Hdi & _ & _ & _ & _ & Hdn & Hdt).
  exists d. split; [done|]. rewrite Hdn, Hdt, Hn, Ht. split.
  - by destruct (Bookmark.arg_notes a) as [[|c s]|].
  - destruct (Bookmark.arg_tags a) as [[|x xs]|]; cbn; eauto.
Qed.

Lemma assign_well_formed self x self' :
  Bookmark.well_formed self = true -> Bookmark.assign self x = Ok self' ->
  Bookmark.well_formed self' = true
  /\ Bookmark.id self' = Bookmark.id self
  /\ Bookmark.title self' = Bookmark.title self
  /\ Bookmark.url self' = Bookmark.url self
  /\ Bookmark.notes self' = Bookmark.notes self
  /\ Bookmark.tags self' = Bookmark.tags self.
Proof.
  intros Hwf. destruct x as [ts|ts]; simpl; intros H.
  - pose proof H as H'. apply set_created_inv in H' as (u & _ & _ & ?); [|done].
    unfold Bookmark.set_created in H.
    destruct (datetime_utils.parse_iso8601 ts); [|discriminate].
    cbn [mbind result_bind] in H. injection H as <-. by cbn.
  - pose proof H as H'. apply set_modified_inv in H' as (u & _ & _ & ?); [|done].
    unfold Bookmark.set_modified in H.
    destruct (datetime_utils.parse_iso8601 ts); [|discriminate].
    cbn [mbind result_bind] in H. injection H as <-. by cbn.
Qed.

(** X11: whatever timestamps are assigned to [created] and [modified]
    after construction, as long as the assignments do not raise, the
    bookmark can still be dumped, and its id, title, url, notes and tags
    are those it was constructed with. *)
Theorem X11_assignments_keep_dumpable (D : Bookmark.defaults)
  (a : Bookmark.arguments) (b b' : Bookmark.t)
  (xs : list Bookmark.assignment) :
  Bookmark.__init__ D a = Ok b ->
  Bookmark.assign_all b xs = Ok b' ->
  is_Ok (Bookmark.dump b')
  /\ Bookmark.id b' = Bookmark.id b
  /\ Bookmark.title b' = Bookmark.title b
  /\ Bookmark.url b' = Bookmark.url b
  /\ Bookmark.notes b' = Bookmark.notes b
  /\ Bookmark.tags b' = Bookmark.tags b.
Proof.
  intros Hb%Bookmark_init_well_formed. revert b Hb.
  induction xs as [|x xs IH]; intros b Hwf; simpl.
  - intros [= <-]. split; [by apply dump_is_Ok_iff|done].
  - destruct (Bookmark.assign b x) as [b1|] eqn:E; [|discriminate].
    cbn [mbind result_bind]. intros H.
    destruct (assign_well_formed _ _ _ Hwf E) as (Hwf1 & ? & ? & ? & ? & ?).
    destruct (IH b1 Hwf1 H) as (? & ? & ? & ? & ? & ?).
    repeat split; congruence.
Qed.


(** Two mappings that differ in the value of one unlisted key are
    filtered alike at every other key. *)
Lemma filter_dict_lookup_frame (d1 d2 : gmap string value) keys k :
  d1 !! k = d2 !! k ->
  utils.filter_dict d1 keys !! k = utils.filter_dict d2 keys !! k.
Proof. intros H. by rewrite !filter_dict_lookup, H. Qed.

(** X12: assigning to [created] changes the entry created of the dump,
    to the [isoformat] of what the parser returned, and no other entry;
    assigning to [modified] likewise changes the entry modified only. *)
Theorem X12_assignment_changes_one_entry (self : Bookmark.t)
  (ts : option string) :
  Bookmark.well_formed self = true ->
  (forall self', Bookmark.set_created self ts = Ok self' ->
     exists d d' u,
       Bookmark.dump self = Ok d /\ Bookmark.dump self' = Ok d'
       /\ datetime_utils.parse_iso8601 ts = Ok u
       /\ d' !! "created"%string = Some (VStr (isoformat u))
       /\ forall k, k <> "created"%string -> d' !! k = d !! k)
  /\ (forall self', Bookmark.set_modified self ts = Ok self' ->
     exists d d' u,
       Bookmark.dump self = Ok d /\ Bookmark.dump self' = Ok d'
       /\ datetime_utils.parse_iso8601 ts = Ok u
       /\ d' !! "modified"%string = Some (VStr (isoformat u))
       /\ forall k, k <> "modified"%string -> d' !! k = d !! k).
Proof.
  intros Hwf. split.
  - intros self' Hset.
    destruct (set_created_inv _ _ _ Hwf Hset) as (u & Hp & Hcr & Hwf').
    pose proof (parse_iso8601_fixed _ _ Hp) as Hfix.
    unfold Bookmark.set_created in Hset. rewrite Hp in Hset.
    cbn [mbind result_bind] in Hset. apply Ok_inj in Hset. subst self'.
    apply dump_well_formed in Hwf as (m & um & cv & Hm & Hum & Hcv & Hd).
    apply dump_well_formed in Hwf' as (m' & um' & cv' & Hm' & Hum' & Hcv' & Hd').
    cbn [Bookmark._modified Bookmark._created Bookmark.id Bookmark.title
         Bookmark.url Bookmark.notes Bookmark.tags] in *.
    rewrite Hm in Hm'. injection Hm' as <-.
    rewrite Hum in Hum'. injection Hum' as <-.
    destruct Hcv' as (uc & Huc & ->). rewrite Hfix in Huc. injection Huc as <-.
    eexists _, _, u. split; [exact Hd|]. split; [exact Hd'|]. split; [done|].
    split.
    + rewrite filter_dict_lookup_other; [reflexivity|].
      rewrite !not_elem_of_cons. repeat split; try discriminate.
      apply not_elem_of_nil.
    + intros k Hk. apply filter_dict_lookup_frame.
      rewrite !list_to_map_cons. cbn [fst snd].
      rewrite !lookup_insert.
      repeat case_decide; try reflexivity; congruence.
  - intros self' Hset.
    destruct (set_modified_inv _ _ _ Hwf Hset) as (u & Hp & Hmo & Hwf').
    pose proof (parse_iso8601_fixed _ _ Hp) as Hfix.
    unfold Bookmark.set_modified in Hset. rewrite Hp in Hset.
    cbn [mbind result_bind] in Hset. apply Ok_inj in Hset. subst self'.
    apply dump_well_formed in Hwf as (m & um & cv & Hm & Hum & Hcv & Hd).
    apply dump_well_formed in Hwf' as (m' & um' & cv' & Hm' & Hum' & Hcv' & Hd').
    cbn [Bookmark._modified Bookmark._created Bookmark.id Bookmark.title
         Bookmark.url Bookmark.notes Bookmark.tags] in *.
    injection Hm' as <-. rewrite Hfix in Hum'. injection Hum' as <-.
    assert (cv' = cv) as ->.
    { destruct (Bookmark._created self) as [c|]; [|congruence].
      destruct Hcv as (uc & Huc & ->), Hcv' as (uc' & Huc' & ->). congruence. }
    eexists _, _, u. split; [exact Hd|]. split; [exact Hd'|]. split; [done|].
    split.
    + rewrite filter_dict_lookup_other; [reflexivity|].
      rewrite !not_elem_of_cons. repeat split; try discriminate.
      apply not_elem_of_nil.
    + intros k Hk. apply filter_dict_lookup_frame.
      rewrite !list_to_map_cons. cbn [fst snd].
      rewrite !lookup_insert.
      repeat case_decide; try reflexivity; congruence.
Qed.

End properties.

(** ** The further properties at sample inputs *)

Lemma X1_witness :
  Bookmark.created sample.b_stored_offset
  = Ok (pydatetime.mk_datetime 2021 1 1 5 0 0 0 0)
  /\ exists c,
       Bookmark._created sample.b_stored_offset = Some c
       /\ pydatetime.utcoffset (pydatetime.mk_datetime 2021 1 1 5 0 0 0 0) = 0
       /\ pydatetime.instant (pydatetime.mk_datetime 2021 1 1 5 0 0 0 0)
          = pydatetime.instant c
       /\ pydatetime.astimezone_utc (pydatetime.mk_datetime 2021 1 1 5 0 0 0 0)
          = Ok (pydatetime.mk_datetime 2021 1 1 5 0 0 0 0).
Proof.
  assert (Bookmark.created sample.b_stored_offset
          = Ok (pydatetime.mk_datetime 2021 1 1 5 0 0 0 0)) as H
    by (vm_compute; reflexivity).
  split; [exact H|].
  exact (proj1 (X1_properties_return_utc sample.b_stored_offset _) H).
Defined.

Lemma X2_witness :
  Bookmark._created sample.b_early
  = Some (pydatetime.mk_datetime 1 1 1 0 0 0 0 18000)
  /\ pydatetime.valid (pydatetime.mk_datetime 1 1 1 0 0 0 0 18000) = true
  /\ Bookmark.created sample.b_early = Err OverflowError
  /\ Bookmark._created sample.b_no_modified = None
  /\ Bookmark.created sample.b_no_modified = Err AttributeError.
Proof.
  destruct (X2_property_errors sample.b_early) as (_ & _ & Hc & _).
  destruct (Hc _ eq_refl eq_refl) as [_ Hov].
  destruct (X2_property_errors sample.b_no_modified) as (Ha & _).
  split; [reflexivity|]. split; [reflexivity|]. split.
  - apply Hov. intros [H _]. vm_compute in H. by apply H.
  - split; [reflexivity|]. apply Ha. reflexivity.
Defined.

Lemma X3_witness :
  Bookmark._modified sample.b_no_modified = None
  /\ Bookmark.dump sample.b_no_modified = Err AttributeError
  /\ Bookmark.well_formed sample.b_full = true
  /\ is_Ok (Bookmark.dump sample.b_full).
Proof.
  destruct (X3_dump_outcome sample.b_no_modified) as (_ & Hn & _).
  destruct (X3_dump_outcome sample.b_full) as (Hok & _).
  split; [reflexivity|]. split; [exact (Hn eq_refl)|].
  split; [reflexivity|]. apply Hok. reflexivity.
Defined.

Lemma X4_witness :
  Bookmark.well_formed sample.b_created_none = true
  /\ exists d,
       Bookmark.dump sample.b_created_none = Ok d
       /\ d !! "created"%string = Some VNone
       /\ exists u, Bookmark.modified sample.b_created_none = Ok u
                    /\ d !! "modified"%string
                       = Some (VStr (pydatetime.isoformat u)).
Proof.
  split; [reflexivity|].
  destruct (X4_dump_shows_properties sample.b_created_none eq_refl)
    as (d & Hd & Hm & Hnone & _).
  exists d. split; [exact Hd|]. split; [exact (Hnone eq_refl)|exact Hm].
Defined.

Lemma X5_witness :
  is_Some (Tag.dump sample.work !! "name"%string)
  /\ "name"%string ∈ [ "id"%string; "name"%string; "bookmarks"%string ]
  /\ Tag.dump sample.work !! "tags"%string = None.
Proof.
  assert (is_Some (Tag.dump sample.work !! "name"%string)) as H
    by (eexists; reflexivity).
  destruct X5_dump_keys_bounded as (_ & Ht & Hn).
  split; [exact H|]. split; [exact (Ht sample.work _ H)|exact (Hn sample.work)].
Defined.

Lemma X6_witness :
  Bookmark.__init__ sample.D sample.created_new_york
  = Ok sample.b_created_new_york
  /\ Bookmark.tags sample.b_created_new_york = []
  /\ exists d sm created b',
       Bookmark.dump sample.b_created_new_york = Ok d
       /\ d !! "modified"%string = Some (VStr sm)
       /\ d !! "created"%string
          = Some (match created with Some sc => VStr sc | None => VNone end)
       /\ Bookmark.__init__ sample.D
            (Bookmark.mk_arguments (Some "t"%string) (Some "u"%string)
               (Some EmptyString) (Some (Some sm)) (Some created) (Some []))
          = Ok b'
       /\ Bookmark.title b' = "t"%string
       /\ Bookmark.url b' = "u"%string
       /\ Bookmark.notes b' = EmptyString
       /\ Bookmark._modified b' = Some sample.import_time
       /\ Bookmark._created b'
          = Some (pydatetime.mk_datetime 2021 1 1 5 0 0 0 0).
Proof.
  assert (Bookmark.__init__ sample.D sample.created_new_york
          = Ok sample.b_created_new_york) as H by (vm_compute; reflexivity).
  split; [exact H|]. split; [reflexivity|].
  exact (X6_rebuild_from_dump sample.D sample.D sample.created_new_york
           sample.b_created_new_york H eq_refl).
Defined.

Lemma X7_witness :
  Bookmark.set_created sample.b_created_none
    (Some "2021-01-01T00:00:00-05:00"%string)
  = Ok sample.b_created_new_york
  /\ Bookmark.created sample.b_created_new_york
     = datetime_utils.parse_iso8601 (Some "2021-01-01T00:00:00-05:00"%string)
  /\ Bookmark.modified sample.b_created_new_york
     = Bookmark.modified sample.b_created_none.
Proof.
  assert (Bookmark.set_created sample.b_created_none
            (Some "2021-01-01T00:00:00-05:00"%string)
          = Ok sample.b_created_new_york) as H by (vm_compute; reflexivity).
  split; [exact H|].
  destruct (X7_set_then_get sample.b_created_none
              (Some "2021-01-01T00:00:00-05:00"%string)) as (Hc & _).
  destruct (Hc _ H) as (H1 & H2 & _). split; [exact H1|exact H2].
Defined.

Lemma X8_witness :
  is_Ok (Bookmark.__repr__ (fun s _ => s) sample.b_minimal)
  /\ is_Ok (Bookmark.dump sample.b_minimal)
  /\ Bookmark._created sample.b_minimal <> None.
Proof.
  assert (is_Ok (Bookmark.__repr__ (fun s _ => s) sample.b_minimal)) as H
    by (eexists; vm_compute; reflexivity).
  split; [exact H|].
  exact (proj1 (proj1 (X8_repr_needs_created (fun s _ => s) sample.b_minimal)) H).
Defined.

Lemma X9_witness :
  pydatetime.valid (pydatetime.mk_datetime 2021 1 1 0 0 0 0 (-18000)) = true
  /\ pydatetime.valid (pydatetime.mk_datetime 2021 1 1 5 0 0 0 0) = true
  /\ pydatetime.instant (pydatetime.mk_datetime 2021 1 1 0 0 0 0 (-18000))
     = pydatetime.instant (pydatetime.mk_datetime 2021 1 1 5 0 0 0 0)
  /\ Bookmark.created sample.b_stored_offset
     = Bookmark.created sample.b_created_new_york.
Proof.
  do 3 (split; [reflexivity|]).
  exact (proj1 (X9_offset_is_immaterial sample.b_stored_offset
                  sample.b_created_new_york
                  (pydatetime.mk_datetime 2021 1 1 0 0 0 0 (-18000))
                  (pydatetime.mk_datetime 2021 1 1 5 0 0 0 0)
                  eq_refl eq_refl eq_refl)
           eq_refl eq_refl).
Defined.

Lemma X10_witness :
  Bookmark.__init__ sample.D sample.full = Ok sample.b_full
  /\ exists d,
       Bookmark.dump sample.b_full = Ok d
       /\ d !! "notes"%string = Some (VStr "prover")
       /\ exists v l, d !! "tags"%string = Some (VList (v :: l)).
Proof.
  assert (Bookmark.__init__ sample.D sample.full = Ok sample.b_full) as H
    by (vm_compute; reflexivity).
  split; [exact H|].
  exact (X10_dump_of_arguments sample.D sample.full sample.b_full H).
Defined.

Lemma X11_witness :
  Bookmark.__init__ sample.D sample.created_none = Ok sample.b_created_none
  /\ Bookmark.assign_all sample.b_created_none
       [ Bookmark.assign_created (Some "2021-01-01T00:00:00-05:00"%string) ]
     = Ok sample.b_created_new_york
  /\ is_Ok (Bookmark.dump sample.b_created_new_york)
  /\ Bookmark.title sample.b_created_new_york
     = Bookmark.title sample.b_created_none.
Proof.
  assert (Bookmark.__init__ sample.D sample.created_none
          = Ok sample.b_created_none) as H1 by (vm_compute; reflexivity).
  assert (Bookmark.assign_all sample.b_created_none
            [ Bookmark.assign_created (Some "2021-01-01T00:00:00-05:00"%string) ]
          = Ok sample.b_created_new_york) as H2 by (vm_compute; reflexivity).
  split; [exact H1|]. split; [exact H2|].
  destruct (X11_assignments_keep_dumpable _ _ _ _ _ H1 H2) as (Hd & _ & Ht & _).
  split; [exact Hd|exact Ht].
Defined.

Lemma X12_witness :
  Bookmark.well_formed sample.b_created_none = true
  /\ Bookmark.set_created sample.b_created_none
       (Some "2021-01-01T00:00:00-05:00"%string)
     = Ok sample.b_created_new_york
  /\ exists d d' u,
       Bookmark.dump sample.b_created_none = Ok d
       /\ Bookmark.dump sample.b_created_new_york = Ok d'
       /\ datetime_utils.parse_iso8601 (Some "2021-01-01T00:00:00-05:00"%string)
          = Ok u
       /\ d' !! "created"%string = Some (VStr (pydatetime.isoformat u))
       /\ forall k, k <> "created"%string -> d' !! k = d !! k.
Proof.
  assert (Bookmark.set_created sample.b_created_none
            (Some "2021-01-01T00:00:00-05:00"%string)
          = Ok sample.b_created_new_york) as H by (vm_compute; reflexivity).
  split; [reflexivity|]. split; [exact H|].
  exact (proj1 (X12_assignment_changes_one_entry sample.b_created_none
                  (Some "2021-01-01T00:00:00-05:00"%string) eq_refl) _ H).
Defined.
